(** * kmol executors: a shallow embedding of [src/kmol/model/executors.py]

    The module sequences training, prediction, evaluation, checkpoint
    selection and learning-rate search.  The embedding follows the Python
    source method by method:

    - Python floats are IEEE binary64 numbers: [PrimFloat.float];
    - Python dicts used as mappings are [gmap string _]; the batch's input
      mapping, which is iterated in insertion order, is an association list;
    - attribute mutation on [self], logging, event dispatch and file writes
      are threaded through a state-and-exception monad [M];
    - collaborators that live outside the module (the network's forward
      pass, the criterion, the optimizer and scheduler steps, the metric
      processor, observers) are fields of a [Framework] record. *)

From Stdlib Require Import ZArith List String Floats Permutation Sorted Lia.
From stdpp Require Import gmap strings pretty list.

Set Warnings "-inexact-float,-register-all".
Local Open Scope Z_scope.
Local Open Scope string_scope.

(** ** A small Python runtime *)

Inductive exn :=
| AttributeError
| ValueError (msg : string)
| IndexError
| KeyError (key : string)
| TypeError
| StopIteration
| UnboundLocalError
| NameError (name : string)
| FileNotFoundError
| CheckpointNotFound.

Inductive outcome (A : Type) :=
| Return (a : A)
| Raise (e : exn).
Arguments Return {A} a.
Arguments Raise {A} e.

Definition is_Return {A} (o : outcome A) : bool :=
  match o with Return _ => true | Raise _ => false end.

(** [isinstance(e, (AttributeError, ValueError))], the handler of
    [_to_device]. *)
Definition is_attribute_or_value_error (e : exn) : bool :=
  match e with
  | AttributeError | ValueError _ => true
  | _ => false
  end.

(** ** Values carried by a batch *)

Inductive device := CPU | CUDA (index : nat).

(** A tensor (or a [torch_geometric] [Data] object) is an opaque payload
    together with the device it resides on. *)
Record tensor := mkTensor { t_data : Z; t_device : device }.

Definition tensor_to (dev : device) (t : tensor) : tensor :=
  {| t_data := t_data t; t_device := dev |}.

Inductive pyvalue :=
| VTensor (t : tensor)                      (* torch.Tensor *)
| VData (t : tensor)                        (* a subclass of Data *)
| VDict (d : list (string * pyvalue))       (* dict *)
| VList (l : list pyvalue)                  (* list *)
| VInt (n : Z)
| VFloat (x : float)
| VStr (s : string)
| VNone.

(** The classes the source tests with [isinstance], [issubclass] and
    [type(...) is ...]. *)
Inductive pyclass :=
| ClsTensor | ClsData | ClsDict | ClsList | ClsInt | ClsFloat | ClsStr
| ClsNoneType.

Definition type_of (v : pyvalue) : pyclass :=
  match v with
  | VTensor _ => ClsTensor
  | VData _ => ClsData
  | VDict _ => ClsDict
  | VList _ => ClsList
  | VInt _ => ClsInt
  | VFloat _ => ClsFloat
  | VStr _ => ClsStr
  | VNone => ClsNoneType
  end.

(** Objects whose identity the source compares with [is]: a class object or
    an instance.  A class object is never identical to a mapping instance. *)
Inductive pyref :=
| RefClass (c : pyclass)
| RefInstance (v : pyvalue).

Definition pyclass_eqb (a b : pyclass) : bool :=
  match a, b with
  | ClsTensor, ClsTensor | ClsData, ClsData | ClsDict, ClsDict
  | ClsList, ClsList | ClsInt, ClsInt | ClsFloat, ClsFloat
  | ClsStr, ClsStr | ClsNoneType, ClsNoneType => true
  | _, _ => false
  end.

(** [a is b] for the two shapes of reference that occur in the source: two
    class objects, or a class object and an instance. *)
Definition py_is (a b : pyref) : bool :=
  match a, b with
  | RefClass c1, RefClass c2 => pyclass_eqb c1 c2
  | _, _ => false
  end.

(** [isinstance(v, torch.Tensor) or issubclass(type(v), Data)] *)
Definition is_tensor_or_data (v : pyvalue) : bool :=
  match v with
  | VTensor _ | VData _ => true
  | _ => false
  end.

(** [isinstance(v, torch.Tensor)] *)
Definition is_tensor (v : pyvalue) : bool :=
  match v with
  | VTensor _ => true
  | _ => false
  end.

(** [v.to(device)]: tensors and [Data] objects have the method; any other
    value raises [AttributeError]. *)
Definition to (dev : device) (v : pyvalue) : outcome pyvalue :=
  match v with
  | VTensor t => Return (VTensor (tensor_to dev t))
  | VData t => Return (VData (tensor_to dev t))
  | _ => Raise AttributeError
  end.

(** [[a.to(device) for a in values]] *)
Fixpoint list_to (dev : device) (values : list pyvalue) : outcome (list pyvalue) :=
  match values with
  | [] => Return []
  | a :: rest =>
      match to dev a with
      | Raise e => Raise e
      | Return a' =>
          match list_to dev rest with
          | Raise e => Raise e
          | Return rest' => Return (a' :: rest')
          end
      end
  end.

(** [values.to(device)] on a value already known to be a tensor or a [Data]
    object: the result of the call, with no exception possible. *)
Definition moved (dev : device) (v : pyvalue) : pyvalue :=
  match v with
  | VTensor t => VTensor (tensor_to dev t)
  | VData t => VData (tensor_to dev t)
  | _ => v
  end.

(** [AbstractExecutor.dict_to_device], lines 65-76.  The parameter is named
    [dict] in the source, so inside the body the name [dict] denotes the
    mapping being converted and [type(v) is dict] compares a class object
    with that mapping.  [dict_value_to_device] is the body of the loop for
    one value [v] of the mapping [dict]. *)
Fixpoint dict_value_to_device (dev : device) (dict : list (string * pyvalue))
    (v : pyvalue) {struct v} : pyvalue :=
  if py_is (RefClass (type_of v)) (RefInstance (VDict dict)) then
    match v with
    | VDict d' =>
        VDict (map (fun kv => (fst kv, dict_value_to_device dev d' (snd kv))) d')
    | _ => v
    end
  else if is_tensor_or_data v then moved dev v
  else v.

Definition dict_to_device (dev : device) (dict : list (string * pyvalue))
    : list (string * pyvalue) :=
  map (fun kv => (fst kv, dict_value_to_device dev dict (snd kv))) dict.

(** [Batch]: the inputs mapping (in insertion order) and the outputs. *)
Record Batch := mkBatch {
  inputs : list (string * pyvalue);
  outputs : pyvalue
}.

(** The body of the [try] in [_to_device], lines 50-60: the value that is
    assigned to [batch.inputs[key]], or the exception raised on the way. *)
Definition to_device_value (dev : device) (values : pyvalue) : outcome pyvalue :=
  if is_tensor_or_data values then to dev values
  else
    match values with
    | VDict d => Return (VDict (dict_to_device dev d))
    | VList l =>
        match l with
        | [] => Raise IndexError                     (* values[0] *)
        | first :: _ =>
            if is_tensor first then
              match list_to dev l with
              | Return l' => Return (VList l')
              | Raise e => Raise e
              end
            else Return (VList l)
        end
    | _ => Return values
    end.

(** ** Configuration, collaborators' objects and the executor *)

Abbreviation checkpoint := (gmap string pyvalue).

(** [Namespace]: an open-ended record of attributes.  The aggregates of the
    metric processor hold one sequence of values per metric name. *)
Abbreviation Namespace := (gmap string (list float)).

Record Config := mkConfig {
  model_is_ensemble : bool;          (* the type named by [config.model] *)
  model_initial_state : pyvalue;     (* parameters of a freshly built network *)
  get_device : device;
  should_parallelize : bool;
  checkpoint_path : option string;
  is_finetuning : bool;
  is_stepwise_scheduler : bool;
  epochs : Z;
  target_metric : string;
  overwrite_checkpoint : bool;
  output_path : string;
  probe_layer : option string;
  inference_mode : string
}.

Inductive net_class :=
| PlainNetwork
| EnsembleNetwork
| CustomDataParallel (module : net_class).

Record Network := mkNetwork {
  net_class_of : net_class;
  net_state : pyvalue;               (* state_dict() *)
  net_device : device;
  net_training : bool                (* train() / eval() mode *)
}.

Record Optimizer := mkOptimizer {
  opt_state : pyvalue;               (* state_dict() *)
  param_groups : list float          (* the "lr" of each parameter group *)
}.

Record Scheduler := mkScheduler { sched_state : pyvalue }.

Record HookProbe := mkHookProbe {
  probe_network : Network;
  probe_layer_name : option string
}.

(** The attributes of an executor instance: those set by
    [AbstractExecutor.__init__], [probe] of [Predictor], and [history],
    [best_loss] and [_iterator] of [LearningRareFinder]. *)
Record Executor := mkExecutor {
  config : Config;
  _start_epoch : pyvalue;
  _device : device;
  network : Network;
  optimizer : option Optimizer;
  scheduler : option Scheduler;
  probe : option HookProbe;
  history_lr : list float;           (* history["lr"] *)
  history_loss : list float;         (* history["loss"] *)
  best_loss : option float;
  _iterator : list Batch             (* what is left of the current pass *)
}.

(** One line of [logs.txt] / of the logging sink written by [Trainer.log]:
    the fields that are formatted into the message. *)
Record log_line := mkLogLine {
  log_epoch : Z;
  log_val_metrics : Namespace;
  log_new_best : bool
}.

(** A message handed to the logging sink: plain text, or the progress line
    of an epoch. *)
Inductive message :=
| Text (s : string)
| Progress (line : log_line).

(** What the executor does to the outside world, in order. *)
Inductive io_event :=
| Dispatch (event_name : string)                    (* EventManager.dispatch_event *)
| LogDebug (e : exn)                                (* logging.debug(e) *)
| LogInfo (msg : message)                           (* logging.info(message) *)
| FileAppend (path : string) (line : log_line)      (* f.write(message) *)
| TorchSave (path : string) (info : checkpoint)     (* torch.save(info, path) *)
| Plot                                              (* LRFinder.plot *)
| JsonDump (path : string) (lr loss : list float).  (* json.dump(history, file) *)

Record World := mkWorld {
  files : gmap string checkpoint;
  trace : list io_event
}.

Record State := mkState { self : Executor; world : World }.

(** ** The state-and-exception monad *)

Definition M (A : Type) : Type := State -> State * outcome A.

Definition ret {A} (a : A) : M A := fun s => (s, Return a).

Definition bind {A B} (m : M A) (k : A -> M B) : M B :=
  fun s =>
    match m s with
    | (s', Return a) => k a s'
    | (s', Raise e) => (s', Raise e)
    end.

Definition raise {A} (e : exn) : M A := fun s => (s, Raise e).

Definition lift {A} (o : outcome A) : M A := fun s => (s, o).

Definition gets {A} (f : Executor -> A) : M A := fun s => (s, Return (f (self s))).

Definition modify (f : Executor -> Executor) : M unit :=
  fun s => ({| self := f (self s); world := world s |}, Return tt).

Definition emit (ev : io_event) : M unit :=
  fun s =>
    ({| self := self s;
        world := {| files := files (world s); trace := trace (world s) ++ [ev] |} |},
     Return tt).

Declare Scope exec_scope.
Delimit Scope exec_scope with exec.
Notation "x <- m ;; k" := (bind m (fun x => k))
  (at level 100, m at next level, right associativity) : exec_scope.
Notation "m ;; k" := (bind m (fun _ => k))
  (at level 100, right associativity) : exec_scope.
Local Open Scope exec_scope.

(** [for x in l: body(x)] *)
Fixpoint for_each {A} (l : list A) (body : A -> M unit) : M unit :=
  match l with
  | [] => ret tt
  | x :: rest => body x ;; for_each rest body
  end.

(** A [for] loop that rebinds a local variable [acc] on every turn. *)
Fixpoint for_fold {A B} (l : list A) (acc : B) (body : B -> A -> M B) : M B :=
  match l with
  | [] => ret acc
  | x :: rest => acc' <- body acc x ;; for_fold rest acc' body
  end.

(** A [for] loop whose body may [break]: the body returns [true] to leave
    the loop. *)
Fixpoint for_break {A} (l : list A) (body : A -> M bool) : M unit :=
  match l with
  | [] => ret tt
  | x :: rest => stop <- body x ;; if stop then ret tt else for_break rest body
  end.

(** [range(lo, hi)] over the integers. *)
Definition range (lo hi : Z) : list Z :=
  map (fun i => lo + Z.of_nat i) (seq 0 (Z.to_nat (hi - lo))).

(** Attribute setters of [self]. *)
Definition set_start_epoch (v : pyvalue) (e : Executor) : Executor :=
  mkExecutor (config e) v (_device e) (network e) (optimizer e) (scheduler e)
    (probe e) (history_lr e) (history_loss e) (best_loss e) (_iterator e).

Definition set_network (n : Network) (e : Executor) : Executor :=
  mkExecutor (config e) (_start_epoch e) (_device e) n (optimizer e) (scheduler e)
    (probe e) (history_lr e) (history_loss e) (best_loss e) (_iterator e).

Definition set_optimizer (o : option Optimizer) (e : Executor) : Executor :=
  mkExecutor (config e) (_start_epoch e) (_device e) (network e) o (scheduler e)
    (probe e) (history_lr e) (history_loss e) (best_loss e) (_iterator e).

Definition set_scheduler (sc : option Scheduler) (e : Executor) : Executor :=
  mkExecutor (config e) (_start_epoch e) (_device e) (network e) (optimizer e) sc
    (probe e) (history_lr e) (history_loss e) (best_loss e) (_iterator e).

Definition set_probe (p : option HookProbe) (e : Executor) : Executor :=
  mkExecutor (config e) (_start_epoch e) (_device e) (network e) (optimizer e)
    (scheduler e) p (history_lr e) (history_loss e) (best_loss e) (_iterator e).

Definition set_history (lr loss : list float) (e : Executor) : Executor :=
  mkExecutor (config e) (_start_epoch e) (_device e) (network e) (optimizer e)
    (scheduler e) (probe e) lr loss (best_loss e) (_iterator e).

Definition set_best_loss (b : option float) (e : Executor) : Executor :=
  mkExecutor (config e) (_start_epoch e) (_device e) (network e) (optimizer e)
    (scheduler e) (probe e) (history_lr e) (history_loss e) b (_iterator e).

Definition set_iterator (it : list Batch) (e : Executor) : Executor :=
  mkExecutor (config e) (_start_epoch e) (_device e) (network e) (optimizer e)
    (scheduler e) (probe e) (history_lr e) (history_loss e) (best_loss e) it.

(** [EventManager.dispatch_event]: observers are collaborators outside the
    module; a dispatch is recorded in the trace. *)
Definition dispatch_event (event_name : string) : M unit :=
  emit (Dispatch event_name).

(** ** AbstractExecutor *)

(** One turn of the loop of [_to_device], lines 48-63: the value left under
    [key] in [batch.inputs].  An [AttributeError] or a [ValueError] is logged
    and the entry keeps its value; any other exception propagates. *)
Definition to_device_entry (dev : device) (values : pyvalue) : M pyvalue :=
  match to_device_value dev values with
  | Return v => ret v
  | Raise e =>
      if is_attribute_or_value_error e then emit (LogDebug e) ;; ret values
      else raise e
  end.

Fixpoint to_device_items (dev : device) (items : list (string * pyvalue))
    : M (list (string * pyvalue)) :=
  match items with
  | [] => ret []
  | (key, values) :: rest =>
      v <- to_device_entry dev values ;;
      rest' <- to_device_items dev rest ;;
      ret ((key, v) :: rest')
  end.

(** [AbstractExecutor._to_device], lines 46-63.  The batch is mutated in
    place by the source; the function returns the batch as it stands when the
    call returns. *)
Definition _to_device (batch : Batch) : M Batch :=
  dev <- gets _device ;;
  outputs' <- lift (to dev (outputs batch)) ;;
  inputs' <- to_device_items dev (inputs batch) ;;
  ret {| inputs := inputs'; outputs := outputs' |}.

(** Modelled from the spec: [AbstractNetwork.load_checkpoint] is defined in
    [kmol.model.architectures], outside this module.  It fails with
    [CheckpointNotFound] when no path is configured or the file is absent, and
    otherwise restores the network's weights from the file's ["model"]
    entry. *)
Definition network_load_checkpoint (path : option string) (dev : device) : M unit :=
  match path with
  | None => raise CheckpointNotFound
  | Some p =>
      fun s =>
        match files (world s) !! p with
        | None => (s, Raise CheckpointNotFound)
        | Some info =>
            match info !! "model" with
            | None => (s, Raise (KeyError "model"))
            | Some w =>
                let n := network (self s) in
                modify (set_network
                          (mkNetwork (net_class_of n) w dev (net_training n))) s
            end
        end
  end.

(** [torch.load(path, map_location=...)] *)
Definition torch_load (path : option string) : M checkpoint :=
  match path with
  | None => raise TypeError
  | Some p =>
      fun s =>
        match files (world s) !! p with
        | None => (s, Raise FileNotFoundError)
        | Some info => (s, Return info)
        end
  end.

(** [optimizer.load_state_dict(state)], [scheduler.load_state_dict(state)] *)
Definition optimizer_load_state_dict (state : pyvalue) (o : Optimizer) : Optimizer :=
  {| opt_state := state; param_groups := param_groups o |}.

Definition scheduler_load_state_dict (state : pyvalue) (sc : Scheduler) : Scheduler :=
  {| sched_state := state |}.

(** [AbstractExecutor._load_checkpoint], lines 78-96. *)
Definition _load_checkpoint (train : bool) : M unit :=
  dispatch_event "before_checkpoint_load" ;;
  cfg <- gets config ;;
  network_load_checkpoint (checkpoint_path cfg) (get_device cfg) ;;
  (if negb (is_finetuning cfg) && train then
     info <- torch_load (checkpoint_path cfg) ;;
     opt <- gets optimizer ;;
     match opt, info !! "optimizer" with
     | Some o, Some st => modify (set_optimizer (Some (optimizer_load_state_dict st o)))
     | _, _ => ret tt
     end ;;
     sch <- gets scheduler ;;
     match sch, info !! "scheduler" with
     | Some sc, Some st => modify (set_scheduler (Some (scheduler_load_state_dict st sc)))
     | _, _ => ret tt
     end ;;
     match info !! "epoch" with
     | Some ep => modify (set_start_epoch ep)
     | None => ret tt
     end
   else ret tt) ;;
  dispatch_event "after_checkpoint_load".

(** [AbstractExecutor._setup_network], lines 98-107. *)
Definition _setup_network : M unit :=
  cfg <- gets config ;;
  modify (set_network
            (mkNetwork (if model_is_ensemble cfg then EnsembleNetwork else PlainNetwork)
                       (model_initial_state cfg) CPU true)) ;;
  dispatch_event "after_network_create" ;;
  (if should_parallelize cfg then
     modify (fun e =>
       let n := network e in
       set_network (mkNetwork (CustomDataParallel (net_class_of n)) (net_state n)
                              (net_device n) (net_training n)) e)
   else ret tt) ;;
  modify (fun e =>
    let n := network e in
    set_network (mkNetwork (net_class_of n) (net_state n) (get_device cfg)
                           (net_training n)) e).

(** ** Collaborators outside the module *)

(** [LoadedContent]: a data loader. *)
Record LoadedContent := mkLoadedContent {
  dataset : list Batch;
  samples : Z;
  batches : Z
}.

(** The deep-learning framework and the metric processor, by the interface
    the executors use. *)
Record Framework := mkFramework {
  (* [self.network(batch.inputs)] *)
  forward : Network -> list (string * pyvalue) -> pyvalue;
  (* [self.criterion(logits, outputs, *extras).item()] *)
  criterion_loss : pyvalue -> pyvalue -> float;
  (* [loss.backward(); self.optimizer.step()] *)
  backward_and_step : Network -> Optimizer -> Batch -> Network * Optimizer;
  (* [self.scheduler.step()]: the scheduler rewrites the optimizer's rates *)
  scheduler_step : Scheduler -> Optimizer -> Scheduler * Optimizer;
  (* [SuperFactory.create(AbstractOptimizer, ...)] *)
  create_optimizer : Config -> Network -> Optimizer;
  (* [SuperFactory.create(AbstractLearningRateScheduler, ...)] *)
  create_scheduler : Config -> Optimizer -> Z -> Scheduler;
  (* [ExponentialLR(optimizer, end_lr, num_iter)] of [torch_lr_finder] *)
  create_exponential_lr : Optimizer -> Z -> Z -> Scheduler;
  (* [compute_statistics(compute_metrics(ground_truth, logits), (np.mean,))] *)
  compute_averages : list pyvalue -> list pyvalue -> Namespace;
  (* [self.network.mc_dropout(batch.inputs, ...)] *)
  mc_dropout : Network -> list (string * pyvalue) -> pyvalue;
  (* [self.probe.get_probe()] *)
  get_probe : HookProbe -> pyvalue;
  (* the observers of [before_checkpoint_save]: what they leave in the
     mapping [payload.info], which they receive by reference *)
  before_checkpoint_save : checkpoint -> checkpoint
}.

(** [try: body except CheckpointNotFound: pass] *)
Definition except_CheckpointNotFound (body : M unit) : M unit :=
  fun s =>
    match body s with
    | (s', Raise CheckpointNotFound) => (s', Return tt)
    | r => r
    end.

(** An attribute that holds [None] has none of the methods called on it. *)
Definition the {A} (o : option A) : M A :=
  match o with
  | Some a => ret a
  | None => raise AttributeError
  end.

(** [Path(parent) / name], for a [parent] without a trailing separator. *)
Definition path_join (parent name : string) : string := parent +:+ "/" +:+ name.

(** [val_metrics == Namespace()] *)
Definition is_empty_namespace (ns : Namespace) : bool :=
  bool_decide (dom ns = (∅ : gset string)).

(** [x > y] on floats. *)
Definition float_gt (x y : float) : bool := PrimFloat.ltb y x.

(** ** Trainer *)

Module Trainer.
Section WithFramework.
Variable fw : Framework.

(** [Trainer._initialize_scheduler], lines 142-150. *)
Definition _initialize_scheduler (cfg : Config) (optimizer : Optimizer)
    (training_examples : Z) : Scheduler :=
  create_scheduler fw cfg optimizer training_examples.

(** [Trainer._setup], lines 121-140.  [self._initialize_scheduler] is
    overridden by [LearningRareFinder]; the method in force is the first
    argument.  The criterion and [anchor_params] are attributes no other
    method of the module reads, and the closing [logging.debug] of the
    network is a diagnostic print; they are left out. *)
Definition _setup (initialize_scheduler : Config -> Optimizer -> Z -> Scheduler)
    (training_examples : Z) : M unit :=
  cfg <- gets config ;;
  net <- gets network ;;
  let opt := create_optimizer fw cfg net in
  modify (set_optimizer (Some opt)) ;;
  modify (set_scheduler (Some (initialize_scheduler cfg opt training_examples))) ;;
  except_CheckpointNotFound
    (_load_checkpoint true ;;
     emit (LogInfo (Text "Checkpoint loaded successfully"))) ;;
  modify (fun e =>
    let n := network e in
    set_network (mkNetwork (net_class_of n) (net_state n) (net_device n) true) e).

(** [Trainer._training_step], lines 168-189.  The exponential trackers
    ([kmol.model.trackers]) only feed the progress display and are left
    out. *)
Definition _training_step (batch : Batch) (epoch : Z) : M unit :=
  batch <- _to_device batch ;;
  opt <- (o <- gets optimizer ;; the o) ;;
  net <- gets network ;;
  let logits := forward fw net (inputs batch) in
  dispatch_event "before_criterion" ;;
  let loss := criterion_loss fw logits (outputs batch) in
  let '(net', opt') := backward_and_step fw net opt batch in
  modify (set_network net') ;;
  modify (set_optimizer (Some opt')) ;;
  cfg <- gets config ;;
  (if is_stepwise_scheduler cfg then
     sc <- (o <- gets scheduler ;; the o) ;;
     let '(sc', opt'') := scheduler_step fw sc opt' in
     modify (set_scheduler (Some sc')) ;;
     modify (set_optimizer (Some opt''))
   else ret tt) ;;
  dispatch_event "before_tracker_update".

(** [Trainer._train_epoch], lines 191-204. *)
Definition _train_epoch (train_loader : LoadedContent) (epoch : Z) : M unit :=
  modify (fun e =>
    let n := network e in
    set_network (mkNetwork (net_class_of n) (net_state n) (net_device n) true) e) ;;
  for_each (dataset train_loader) (fun batch => _training_step batch epoch) ;;
  cfg <- gets config ;;
  if is_stepwise_scheduler cfg then ret tt
  else
    sc <- (o <- gets scheduler ;; the o) ;;
    opt <- (o <- gets optimizer ;; the o) ;;
    let '(sc', opt') := scheduler_step fw sc opt in
    modify (set_scheduler (Some sc')) ;;
    modify (set_optimizer (Some opt')).

(** The loop of [_validation], lines 214-221: the ground truth and the
    logits collected so far. *)
Definition validation_step (acc : list pyvalue * list pyvalue) (batch : Batch)
    : M (list pyvalue * list pyvalue) :=
  batch <- _to_device batch ;;
  net <- gets network ;;
  let logits := forward fw net (inputs batch) in
  dispatch_event "after_val_inference" ;;
  ret ((fst acc ++ [outputs batch])%list, (snd acc ++ [logits])%list).

(** [Trainer._validation], lines 206-226. *)
Definition _validation (val_loader : option LoadedContent) : M Namespace :=
  match val_loader with
  | None => ret ∅
  | Some loader =>
      modify (fun e =>
        let n := network e in
        set_network (mkNetwork (net_class_of n) (net_state n) (net_device n) false) e) ;;
      acc <- for_fold (dataset loader) ([], []) validation_step ;;
      ret (compute_averages fw (fst acc) (snd acc))
  end.

(** [Trainer.save], lines 255-269. *)
Definition save (epoch : Z) : M unit :=
  net <- gets network ;;
  opt <- (o <- gets optimizer ;; the o) ;;
  sc <- (o <- gets scheduler ;; the o) ;;
  let info : checkpoint :=
    <["epoch" := VInt epoch]>
      (<["model" := net_state net]>
         (<["optimizer" := opt_state opt]>
            (<["scheduler" := sched_state sc]> ∅))) in
  cfg <- gets config ;;
  let suffix := if overwrite_checkpoint cfg then "best" else pretty epoch in
  let model_path := path_join (output_path cfg) ("checkpoint." +:+ suffix +:+ ".pt") in
  emit (LogInfo (Text ("Saving checkpoint: " +:+ model_path))) ;;
  dispatch_event "before_checkpoint_save" ;;
  let info := before_checkpoint_save fw info in
  fun s =>
    ({| self := self s;
        world := {| files := <[model_path := info]> (files (world s));
                    trace := trace (world s) ++ [TorchSave model_path info] |} |},
     Return tt).

(** [Trainer._check_best], lines 228-238. *)
Definition _check_best (epoch : Z) (val_metrics : Namespace) (best_metric : float)
    : M (float * bool) :=
  cfg <- gets config ;;
  r <- (if is_empty_namespace val_metrics then ret (best_metric, true)
        else
          match val_metrics !! target_metric cfg with
          | None => raise AttributeError              (* getattr *)
          | Some [] => raise IndexError               (* [0] *)
          | Some (target :: _) => ret (target, float_gt target best_metric)
          end) ;;
  let '(target, new_best) := r in
  if new_best then save epoch ;; ret (target, new_best)
  else ret (best_metric, new_best).

(** The loop of [Trainer.log], lines 281-282, reads [value[0]] of every
    validation metric. *)
Definition check_first_values (val_metrics : Namespace) : M unit :=
  for_each (map_to_list val_metrics)
    (fun kv => match snd kv with [] => raise IndexError | _ :: _ => ret tt end).

(** [Trainer.log], lines 271-296. *)
Definition log (epoch : Z) (val_metrics : Namespace) (new_best : bool) : M unit :=
  check_first_values val_metrics ;;
  let line := {| log_epoch := epoch; log_val_metrics := val_metrics;
                 log_new_best := new_best |} in
  dispatch_event "before_train_progress_log" ;;
  emit (LogInfo (Progress line)) ;;
  cfg <- gets config ;;
  emit (FileAppend (path_join (output_path cfg) "logs.txt") line).

(** [self._start_epoch + 1] and [range] need an integer. *)
Definition as_int (v : pyvalue) : M Z :=
  match v with
  | VInt n => ret n
  | _ => raise TypeError
  end.

(** The body of the epoch loop of [Trainer.run], lines 159-164; the local
    variable [best_metric] is the accumulator. *)
Definition run_epoch (data_loader : LoadedContent) (val_loader : option LoadedContent)
    (best_metric : float) (epoch : Z) : M float :=
  _train_epoch data_loader epoch ;;
  val_metrics <- _validation val_loader ;;
  r <- _check_best epoch val_metrics best_metric ;;
  log epoch val_metrics (snd r) ;;
  ret (fst r).

(** [Trainer.run], lines 152-166. *)
Definition run (data_loader : LoadedContent) (val_loader : option LoadedContent)
    : M unit :=
  _setup _initialize_scheduler (samples data_loader) ;;
  dispatch_event "before_train_start" ;;
  let best_metric := neg_infinity in
  start <- (v <- gets _start_epoch ;; as_int v) ;;
  cfg <- gets config ;;
  for_fold (range (start + 1) (epochs cfg + 1)) best_metric
    (run_epoch data_loader val_loader) ;;
  dispatch_event "after_train_end".

End WithFramework.
End Trainer.

(** ** Construction *)

(** [AbstractExecutor.__init__], lines 33-44: the instance it leaves in the
    given world. *)
Definition AbstractExecutor_init (cfg : Config) (w : World) : State * outcome unit :=
  _setup_network
    {| self := {| config := cfg; _start_epoch := VInt 0; _device := get_device cfg;
                  network := mkNetwork PlainNetwork VNone CPU true;
                  optimizer := None; scheduler := None; probe := None;
                  history_lr := []; history_loss := []; best_loss := None;
                  _iterator := [] |};
       world := w |}.

(** ** Predictor *)

(** [outputs[key] = value] on a mapping held in insertion order. *)
Fixpoint dict_set (key : string) (value : pyvalue) (d : list (string * pyvalue))
    : list (string * pyvalue) :=
  match d with
  | [] => [(key, value)]
  | (k, v) :: rest =>
      if String.eqb k key then (k, value) :: rest
      else (k, v) :: dict_set key value rest
  end.

(** [outputs[key]], [key in outputs] *)
Fixpoint dict_get (key : string) (d : list (string * pyvalue)) : option pyvalue :=
  match d with
  | [] => None
  | (k, v) :: rest => if String.eqb k key then Some v else dict_get key rest
  end.

(** [isinstance(self.network, EnsembleNetwork)] *)
Definition is_EnsembleNetwork (n : Network) : bool :=
  match net_class_of n with
  | EnsembleNetwork => true
  | _ => false
  end.

Module Predictor.
Section WithFramework.
Variable fw : Framework.

(** [Predictor.__init__], lines 300-309. *)
Definition init (cfg : Config) (w : World) : State * outcome unit :=
  match AbstractExecutor_init cfg w with
  | (s, Raise e) => (s, Raise e)
  | (s, Return _) =>
      (_load_checkpoint false ;;
       modify (fun e =>
         let n := network e in
         set_network (mkNetwork (net_class_of n) (net_state n) (net_device n) false) e) ;;
       modify (set_probe None))%exec s
  end.

(** [Predictor.set_hook_probe], lines 311-318. *)
Definition set_hook_probe : M unit :=
  net <- gets network ;;
  if is_EnsembleNetwork net then
    raise (ValueError
      ("Probing hidden layers is not defined for Ensembles."
       +:+ " Please change 'probe_layer' parameter to 'null' or use a different type of network."))
  else
    cfg <- gets config ;;
    modify (set_probe (Some (mkHookProbe net (probe_layer cfg)))).

(** [Predictor.run], lines 320-348: the outputs mapping of the payload it
    returns, together with the batch.  The payload is built by
    [Namespace(features=batch, **outputs)], a call that raises [TypeError]
    when the outputs themselves hold the key ["features"]. *)
Definition run (batch : Batch) : M (list (string * pyvalue) * Batch) :=
  batch <- _to_device batch ;;
  cfg <- gets config ;;
  match probe_layer cfg with
  | Some _ => set_hook_probe
  | None => ret tt
  end ;;
  dispatch_event "before_predict" ;;
  net <- gets network ;;
  let outputs :=
    if String.eqb (inference_mode cfg) "mc_dropout"
    then mc_dropout fw net (inputs batch)
    else forward fw net (inputs batch) in
  outputs <- match outputs with
             | VTensor t => ret [("logits", VTensor t)]
             | VDict d => ret d
             | _ => raise TypeError
             end ;;
  pr <- gets probe ;;
  let outputs := match pr with
                 | Some p => dict_set "hidden_layer" (get_probe fw p) outputs
                 | None => outputs
                 end in
  match dict_get "features" outputs with
  | Some _ => raise TypeError
  | None => ret tt
  end ;;
  dispatch_event "after_predict" ;;
  ret (outputs, batch).


End WithFramework.
End Predictor.

(** ** Pipeliner *)

(** Python's [sorted(l, key=key)]: a stable sort by increasing key.  Each
    element is entered before the first element of the sorted tail whose key
    is not smaller, so elements with equal keys keep their order. *)
Fixpoint insert_by {A} (key : A -> nat) (x : A) (l : list A) : list A :=
  match l with
  | [] => [x]
  | y :: rest =>
      if (key x <=? key y)%nat then x :: y :: rest
      else y :: insert_by key x rest
  end.

Fixpoint sorted {A} (l : list A) (key : A -> nat) : list A :=
  match l with
  | [] => []
  | x :: rest => insert_by key x (sorted rest key)
  end.

Module Pipeliner.
Section WithFileSystem.
(** [Path(directory).rglob(pattern)]: the paths the operating system yields,
    in the order it yields them. *)
Variable rglob : string -> string -> list string.

(** [Pipeliner.find_all_checkpoints], lines 408-411. *)
Definition find_all_checkpoints (cfg : Config) : list string :=
  let checkpoint_paths := rglob (output_path cfg) "*.pt" in
  let checkpoint_paths := sorted checkpoint_paths String.length in
  checkpoint_paths.

End WithFileSystem.
End Pipeliner.

(** ** LearningRareFinder *)

Module LearningRareFinder.
Section WithFramework.
Variable fw : Framework.

Definition END_LEARNING_RATE : Z := 100.
Definition START_LR : float := 1e-5%float.
Definition NUM_ITERATION : Z := 100.
(** The integer 5; it only occurs as a factor of a float. *)
Definition DIVERGENCE_THRESHOLD : float := 5%float.
Definition SMOOTHING_FACTOR : float := 0.05%float.

(** [LearningRareFinder._initialize_scheduler], lines 450-451. *)
Definition _initialize_scheduler (cfg : Config) (optimizer : Optimizer)
    (training_examples : Z) : Scheduler :=
  create_exponential_lr fw optimizer END_LEARNING_RATE NUM_ITERATION.

(** [LearningRareFinder._set_learning_rate], lines 453-456. *)
Definition _set_learning_rate (new_lr : float) : M unit :=
  opt <- (o <- gets optimizer ;; the o) ;;
  modify (set_optimizer
            (Some {| opt_state := opt_state opt;
                     param_groups := map (fun _ => new_lr) (param_groups opt) |})).

(** [LearningRareFinder._get_learning_rate], lines 520-521. *)
Definition _get_learning_rate : M float :=
  opt <- (o <- gets optimizer ;; the o) ;;
  match param_groups opt with
  | [] => raise IndexError
  | lr :: _ => ret lr
  end.

(** [SMOOTHING_FACTOR * loss + (1 - SMOOTHING_FACTOR) * previous] *)
Definition smooth (loss previous : float) : float :=
  (SMOOTHING_FACTOR * loss + (1 - SMOOTHING_FACTOR) * previous)%float.

(** [LearningRareFinder.track_best_loss], lines 508-518. *)
Definition track_best_loss (iteration : Z) (loss : float) : M float :=
  if (iteration =? 0)%Z then
    modify (set_best_loss (Some loss)) ;; ret loss
  else
    smooth_loss <-
      (if float_gt SMOOTHING_FACTOR 0 then
         h <- gets history_loss ;;
         match last h with
         | None => raise IndexError                  (* self.history["loss"][-1] *)
         | Some previous => ret (smooth loss previous)
         end
       else raise UnboundLocalError) ;;
    best <- gets best_loss ;;
    match best with
    | None => raise TypeError
    | Some b =>
        if PrimFloat.ltb smooth_loss b
        then modify (set_best_loss (Some smooth_loss))
        else ret tt
    end ;;
    ret smooth_loss.

(** [next(self._iterator)], restarting the pass when it is exhausted, lines
    471-475. *)
Definition next_batch (data_loader : LoadedContent) : M Batch :=
  it <- gets _iterator ;;
  match it with
  | data :: rest => modify (set_iterator rest) ;; ret data
  | [] =>
      match dataset data_loader with
      | data :: rest => modify (set_iterator rest) ;; ret data
      | [] => modify (set_iterator []) ;; raise StopIteration
      end
  end.

(** The body of the loop of [run], lines 471-498; the result says whether
    the [break] of line 498 is taken. *)
Definition run_iteration (data_loader : LoadedContent) (iteration : Z) : M bool :=
  data <- next_batch data_loader ;;
  data <- _to_device data ;;
  opt <- (o <- gets optimizer ;; the o) ;;
  net <- gets network ;;
  let logits := forward fw net (inputs data) in
  dispatch_event "before_criterion" ;;
  let loss := criterion_loss fw logits (outputs data) in
  smoothed_loss <- track_best_loss iteration loss ;;
  lr <- _get_learning_rate ;;
  modify (fun e => set_history (history_lr e ++ [lr])%list (history_loss e) e) ;;
  let '(net', opt') := backward_and_step fw net opt data in
  modify (set_network net') ;;
  modify (set_optimizer (Some opt')) ;;
  sc <- (o <- gets scheduler ;; the o) ;;
  let '(sc', opt'') := scheduler_step fw sc opt' in
  modify (set_scheduler (Some sc')) ;;
  modify (set_optimizer (Some opt'')) ;;
  modify (fun e => set_history (history_lr e) (history_loss e ++ [smoothed_loss])%list e) ;;
  _ <- _get_learning_rate ;;                       (* the progress description *)
  best <- gets best_loss ;;
  match best with
  | None => raise TypeError
  | Some b => ret (float_gt smoothed_loss (DIVERGENCE_THRESHOLD * b)%float)
  end.

(** The loop of [run], line 470, over the first [budget] iterations. *)
Definition search (data_loader : LoadedContent) (budget : Z) : M unit :=
  for_break (range 0 budget) (run_iteration data_loader).

(** [LearningRareFinder.run], lines 458-506.  The name [plt] of line 504 is
    bound nowhere in the module, so evaluating it raises [NameError]. *)
Definition run (data_loader : LoadedContent) : M unit :=
  modify (set_history [] []) ;;
  modify (set_best_loss None) ;;
  Trainer._setup fw _initialize_scheduler (batches data_loader) ;;
  _set_learning_rate START_LR ;;
  dispatch_event "before_train_start" ;;
  modify (set_iterator (dataset data_loader)) ;;
  search data_loader NUM_ITERATION ;;
  emit (LogInfo (Text ("Learning rate search finished. The value below in an indication"
                       +:+ " see the graph in the output directory for analysis"))) ;;
  emit Plot ;;
  (raise (NameError "plt") : M unit) ;;
  cfg <- gets config ;;
  lr <- gets history_lr ;;
  loss <- gets history_loss ;;
  emit (JsonDump (path_join (output_path cfg) "history.json") lr loss).

End WithFramework.
End LearningRareFinder.

(** ** Concrete inputs

    Small worlds on which the properties below are evaluated. *)

Definition example_config : Config :=
  {| model_is_ensemble := false; model_initial_state := VInt 0;
     get_device := CUDA 0; should_parallelize := false;
     checkpoint_path := Some "out/checkpoint.7.pt";
     is_finetuning := false; is_stepwise_scheduler := false;
     epochs := 3; target_metric := "accuracy";
     overwrite_checkpoint := false; output_path := "out";
     probe_layer := None; inference_mode := "null" |}.

(** Two directory listings of the same two checkpoint files. *)
Definition listing_12 (_ _ : string) : list string :=
  ["out/checkpoint.1.pt"; "out/checkpoint.2.pt"].
Definition listing_21 (_ _ : string) : list string :=
  ["out/checkpoint.2.pt"; "out/checkpoint.1.pt"].

(** Two listings of two files whose paths differ in length. *)
Definition listing_best_7 (_ _ : string) : list string :=
  ["out/checkpoint.best.pt"; "out/checkpoint.7.pt"].
Definition listing_7_best (_ _ : string) : list string :=
  ["out/checkpoint.7.pt"; "out/checkpoint.best.pt"].

(** A checkpoint as [Trainer.save] writes it, and one that only holds the
    weights and the epoch. *)
Definition full_checkpoint : checkpoint :=
  <["epoch" := VInt 7]>
    (<["model" := VInt 11]>
       (<["optimizer" := VInt 12]> (<["scheduler" := VInt 13]> ∅))).

Definition weights_and_epoch_checkpoint : checkpoint :=
  <["epoch" := VInt 7]> (<["model" := VInt 11]> ∅).

Definition example_world : World :=
  {| files := <["out/checkpoint.7.pt" := full_checkpoint]>
                (<["out/partial.pt" := weights_and_epoch_checkpoint]> ∅);
     trace := [] |}.

Definition with_checkpoint_path (path : option string) (cfg : Config) : Config :=
  mkConfig (model_is_ensemble cfg) (model_initial_state cfg) (get_device cfg)
    (should_parallelize cfg) path (is_finetuning cfg) (is_stepwise_scheduler cfg)
    (epochs cfg) (target_metric cfg) (overwrite_checkpoint cfg) (output_path cfg)
    (probe_layer cfg) (inference_mode cfg).

(** An executor as [Trainer._setup] has it when it loads the checkpoint. *)
Definition example_executor (cfg : Config) : Executor :=
  {| config := cfg; _start_epoch := VInt 0; _device := get_device cfg;
     network := mkNetwork PlainNetwork (VInt 1) (get_device cfg) true;
     optimizer := Some {| opt_state := VInt 2; param_groups := [0.001%float] |};
     scheduler := Some {| sched_state := VInt 3 |};
     probe := None; history_lr := []; history_loss := []; best_loss := None;
     _iterator := [] |}.

Definition example_state : State :=
  {| self := example_executor example_config; world := example_world |}.

Definition partial_state : State :=
  {| self := example_executor
               (with_checkpoint_path (Some "out/partial.pt") example_config);
     world := example_world |}.

(** Collaborators that leave everything as it is; the loss of a batch is
    read off its target tensor. *)
Definition example_framework : Framework :=
  {| forward := fun net _ => VTensor (mkTensor 0 (net_device net));
     criterion_loss := fun _ target =>
       match target with
       | VTensor t => if (t_data t =? 0)%Z then 1%float else 1000%float
       | _ => 1%float
       end;
     backward_and_step := fun net opt _ => (net, opt);
     scheduler_step := fun sc opt => (sc, opt);
     create_optimizer := fun _ _ =>
       {| opt_state := VInt 2; param_groups := [0.001%float] |};
     create_scheduler := fun _ _ _ => {| sched_state := VInt 3 |};
     create_exponential_lr := fun _ _ _ => {| sched_state := VInt 3 |};
     compute_averages := fun _ _ => ∅;
     mc_dropout := fun net _ => VTensor (mkTensor 0 (net_device net));
     get_probe := fun _ => VNone;
     before_checkpoint_save := fun info => info |}.

(** The same collaborators with an observer of [before_checkpoint_save]. *)
Definition with_save_observer (observer : checkpoint -> checkpoint)
    (fw : Framework) : Framework :=
  mkFramework (forward fw) (criterion_loss fw) (backward_and_step fw)
    (scheduler_step fw) (create_optimizer fw) (create_scheduler fw)
    (create_exponential_lr fw) (compute_averages fw) (mc_dropout fw)
    (get_probe fw) observer.

(** An observer that adds an entry to the payload it is handed. *)
Definition add_sigma (info : checkpoint) : checkpoint :=
  <["sigma" := VFloat 0.5%float]> info.

(** A configuration that asks for a probe, an ensemble built from it, and a
    batch of one tensor. *)
Definition probe_config : Config :=
  mkConfig true (VInt 0) (CUDA 0) false (Some "out/checkpoint.7.pt") false false
    3 "accuracy" false "out" (Some "fc1") "null".

Definition ensemble_state : State :=
  {| self := {| config := probe_config; _start_epoch := VInt 0; _device := CUDA 0;
                network := mkNetwork EnsembleNetwork (VInt 1) (CUDA 0) false;
                optimizer := None; scheduler := None; probe := None;
                history_lr := []; history_loss := []; best_loss := None;
                _iterator := [] |};
     world := example_world |}.

Definition example_batch : Batch :=
  {| inputs := [("x", VTensor (mkTensor 5 CPU))]; outputs := VTensor (mkTensor 0 CPU) |}.

(** A loader of one batch, and an executor with no checkpoint to resume
    from. *)
Definition example_loader : LoadedContent :=
  {| dataset := [example_batch]; samples := 1; batches := 1 |}.

Definition fresh_state : State :=
  {| self := example_executor (with_checkpoint_path None example_config);
     world := example_world |}.

(** Validation results: one aggregate per metric. *)
Definition accuracy_of (x : float) : Namespace := {[ "accuracy" := [x] ]}.

(** The same collaborators with a metric processor that reports an accuracy
    of one half on every validation pass. *)
Definition scoring_framework : Framework :=
  mkFramework (forward example_framework) (criterion_loss example_framework)
    (backward_and_step example_framework) (scheduler_step example_framework)
    (create_optimizer example_framework) (create_scheduler example_framework)
    (create_exponential_lr example_framework) (fun _ _ => accuracy_of 0.5%float)
    (mc_dropout example_framework) (get_probe example_framework)
    (before_checkpoint_save example_framework).

(** A loader whose second batch makes the loss jump. *)
Definition diverging_loader : LoadedContent :=
  {| dataset := [example_batch;
                 {| inputs := [("x", VTensor (mkTensor 5 CPU))];
                    outputs := VTensor (mkTensor 1 CPU) |}];
     samples := 2; batches := 2 |}.

(** An ensemble model to be run in parallel, with a probe layer. *)
Definition parallel_probe_config : Config :=
  mkConfig true (VInt 0) (CUDA 0) true (Some "out/checkpoint.7.pt") false false
    3 "accuracy" false "out" (Some "fc1") "null".

(** An executor whose configuration resumes from the checkpoint of epoch 2. *)
Definition resumable_state : State :=
  {| self := example_executor
               (with_checkpoint_path (Some "out/checkpoint.2.pt") example_config);
     world := example_world |}.

(** * Properties *)

(** ** The monad *)

Lemma bind_Return {A B} (m : M A) (k : A -> M B) s s' a :
  m s = (s', Return a) -> bind m k s = k a s'.
Proof. intros H. unfold bind. now rewrite H. Qed.

Lemma bind_Raise {A B} (m : M A) (k : A -> M B) s s' e :
  m s = (s', Raise e) -> bind m k s = (s', Raise e).
Proof. intros H. unfold bind. now rewrite H. Qed.


(** A bind that raises: either its first part raised, or it returned and the
    continuation raised. *)
Lemma bind_inv_Raise {A B} (m : M A) (k : A -> M B) s s2 e :
  bind m k s = (s2, Raise e) ->
  m s = (s2, Raise e) \/
  exists s1 a, m s = (s1, Return a) /\ k a s1 = (s2, Raise e).
Proof.
  unfold bind. destruct (m s) as [s1 [a|e']]; intros H.
  - right. exists s1, a. split; [reflexivity | exact H].
  - left. injection H as -> ->. reflexivity.
Qed.

(** One step of a computation. *)
Lemma bind_ret {A B} (a : A) (k : A -> M B) s : bind (ret a) k s = k a s.
Proof. reflexivity. Qed.

Lemma bind_gets {A B} (f : Executor -> A) (k : A -> M B) s :
  bind (gets f) k s = k (f (self s)) s.
Proof. reflexivity. Qed.

Lemma bind_modify {B} (f : Executor -> Executor) (k : unit -> M B) s :
  bind (modify f) k s = k tt {| self := f (self s); world := world s |}.
Proof. reflexivity. Qed.

Lemma bind_emit {B} (ev : io_event) (k : unit -> M B) s :
  bind (emit ev) k s
  = k tt {| self := self s;
            world := {| files := files (world s);
                        trace := trace (world s) ++ [ev] |} |}.
Proof. reflexivity. Qed.

Lemma bind_raise {A B} (e : exn) (k : A -> M B) s :
  bind (raise e) k s = (s, Raise e).
Proof. reflexivity. Qed.

Lemma bind_bind {A B C} (m : M A) (k : A -> M B) (h : B -> M C) s :
  bind (bind m k) h s = bind m (fun a => bind (k a) h) s.
Proof. unfold bind. destruct (m s) as [s1 [a|e]]; reflexivity. Qed.

(** ** Device transfer *)

(** The debug messages in a trace. *)
Definition logged (e : exn) (w : World) : Prop := In (LogDebug e) (trace w).

Lemma to_device_value_tensor dev t :
  to_device_value dev (VTensor t) = Return (VTensor (tensor_to dev t)).
Proof. reflexivity. Qed.

Lemma list_to_raises dev l x : list_to dev l = Raise x -> x = AttributeError.
Proof.
  revert x. induction l as [|a l IH]; intros x; simpl; [discriminate|].
  destruct (to dev a) as [a'|e] eqn:Ea.
  - destruct (list_to dev l) as [l'|e]; [discriminate|].
    intros [= <-]. now apply IH.
  - intros [= <-]. destruct a; simpl in Ea; congruence.
Qed.

(** The only exceptions of the [try] body: [IndexError] on an empty list,
    [AttributeError] on a list that starts with a tensor and holds a value
    without [to]. *)
Lemma to_device_value_raises dev v e :
  to_device_value dev v = Raise e ->
  (e = IndexError /\ v = VList []) \/
  (e = AttributeError /\ exists first rest, v = VList (VTensor first :: rest)).
Proof.
  destruct v as [t|t|d|l| | | |]; try discriminate.
  destruct l as [|first rest].
  - intros [= <-]. now left.
  - unfold to_device_value. cbn [is_tensor_or_data].
    destruct first as [t|t|d|l'| | | |]; cbn [is_tensor]; try discriminate.
    destruct (list_to dev (VTensor t :: rest)) as [l'|x] eqn:E; [discriminate|].
    intros [= <-]. right. split; [now apply (list_to_raises _ _ _ E) | now exists t, rest].
Qed.

(** An entry whose transfer raised [AttributeError] is logged and keeps its
    value; the loop goes on. *)
Lemma to_device_entry_logged dev v s :
  to_device_value dev v = Raise AttributeError ->
  exists s', to_device_entry dev v s = (s', Return v) /\
             self s' = self s /\
             trace (world s') = (trace (world s) ++ [LogDebug AttributeError])%list.
Proof.
  intros H. unfold to_device_entry. rewrite H. simpl.
  eexists. split; [reflexivity|]. split; reflexivity.
Qed.

(** A tensor-valued entry is moved and nothing is logged. *)
Lemma to_device_entry_tensor dev t s :
  to_device_entry dev (VTensor t) s = (s, Return (VTensor (tensor_to dev t))).
Proof. reflexivity. Qed.

(** C5, at the failing input: a batch whose inputs hold an empty list.
    [values[0]] raises [IndexError], which the handler of [_to_device]
    (for [AttributeError] and [ValueError]) does not catch: the transfer
    raises, and nothing is logged. *)
Theorem to_device_empty_list_raises (s : State) (key : string) (t : tensor) :
  _to_device {| inputs := [(key, VList [])]; outputs := VTensor t |} s
  = (s, Raise IndexError).
Proof. destruct s as [e w]. reflexivity. Qed.

(** Away from that input the transfer is lenient: when the outputs are a
    tensor and no input is an empty list, [_to_device] returns. *)
Lemma to_device_items_returns dev items s :
  Forall (fun kv => snd kv <> VList []) items ->
  exists s' items', to_device_items dev items s = (s', Return items').
Proof.
  revert s. induction items as [|[k v] items IH]; intros s Hall.
  - eexists _, _. reflexivity.
  - inversion Hall as [|? ? Hv Hrest]; subst. simpl in Hv.
    simpl. unfold to_device_entry.
    destruct (to_device_value dev v) as [v'|e] eqn:E.
    + destruct (IH s Hrest) as (s' & items' & Hi).
      eexists _, _. unfold bind, ret. simpl. rewrite Hi. reflexivity.
    + destruct (to_device_value_raises _ _ _ E) as [[-> ->]|[-> _]];
        [congruence|].
      simpl.
      destruct (IH {| self := self s;
                      world := {| files := files (world s);
                                  trace := (trace (world s) ++ [LogDebug AttributeError])%list |} |}
                   Hrest) as (s' & items' & Hi).
      eexists _, _. unfold bind, ret, emit. simpl. rewrite Hi. reflexivity.
Qed.

Lemma to_device_returns batch s :
  is_tensor_or_data (outputs batch) = true ->
  Forall (fun kv => snd kv <> VList []) (inputs batch) ->
  exists s' batch', _to_device batch s = (s', Return batch').
Proof.
  intros Hout Hall. unfold _to_device.
  destruct (to_device_items_returns (_device (self s)) (inputs batch) s Hall)
    as (s' & items' & Hi).
  destruct (outputs batch) as [t|t|d|l| | | |]; try discriminate Hout;
    eexists _, _; unfold bind, gets, lift, ret; simpl; rewrite Hi; reflexivity.
Qed.

(** ** Checkpoint discovery *)

Section Sorted.
Context {A : Type} (key : A -> nat).

Definition key_le (a b : A) : Prop := (key a <= key b)%nat.

(** The elements with a given key, in the order of the list. *)
Definition with_key (n : nat) (l : list A) : list A :=
  List.filter (fun a => (key a =? n)%nat) l.

Lemma insert_by_Permutation x l : Permutation (insert_by key x l) (x :: l).
Proof.
  induction l as [|y l IH]; simpl; [reflexivity|].
  destruct (key x <=? key y)%nat; [reflexivity|].
  rewrite IH. apply perm_swap.
Qed.

Lemma sorted_Permutation l : Permutation (sorted l key) l.
Proof.
  induction l as [|x l IH]; simpl; [reflexivity|].
  rewrite insert_by_Permutation. now rewrite IH.
Qed.

Lemma insert_by_StronglySorted x l :
  StronglySorted key_le l -> StronglySorted key_le (insert_by key x l).
Proof.
  induction 1 as [|y l Hl IH Hy]; simpl.
  - constructor; constructor.
  - destruct (key x <=? key y)%nat eqn:E.
    + apply Nat.leb_le in E. constructor.
      * now constructor.
      * constructor; [exact E|].
        eapply List.Forall_impl; [|exact Hy]. unfold key_le. intros; lia.
    + apply Nat.leb_gt in E. constructor; [exact IH|].
      rewrite insert_by_Permutation.
      constructor; [unfold key_le; lia | exact Hy].
Qed.

Lemma sorted_StronglySorted l : StronglySorted key_le (sorted l key).
Proof.
  induction l as [|x l IH]; simpl; [constructor|].
  now apply insert_by_StronglySorted.
Qed.

Lemma with_key_insert_by n x l :
  with_key n (insert_by key x l) = with_key n (x :: l).
Proof.
  induction l as [|y l IH]; [reflexivity|].
  cbn [insert_by]. destruct (key x <=? key y)%nat eqn:E; [reflexivity|].
  apply Nat.leb_gt in E.
  unfold with_key in *. cbn [List.filter] in *. rewrite IH.
  destruct (key x =? n)%nat eqn:Ex, (key y =? n)%nat eqn:Ey; try reflexivity.
  apply Nat.eqb_eq in Ex, Ey. lia.
Qed.

(** Stability: elements of equal key keep the order of the input. *)
Lemma with_key_sorted n l : with_key n (sorted l key) = with_key n l.
Proof.
  induction l as [|x l IH]; [reflexivity|].
  cbn [sorted]. rewrite with_key_insert_by.
  unfold with_key in *. cbn [List.filter]. now rewrite IH.
Qed.

Lemma with_key_In n a l : In a (with_key n l) <-> In a l /\ key a = n.
Proof.
  unfold with_key. rewrite List.filter_In, Nat.eqb_eq. reflexivity.
Qed.

Lemma with_key_swap a b n :
  key a <> key b -> with_key n [a; b] = with_key n [b; a].
Proof.
  intros Hne. unfold with_key. cbn [List.filter].
  destruct (key a =? n)%nat eqn:Ea, (key b =? n)%nat eqn:Eb; try reflexivity.
  apply Nat.eqb_eq in Ea, Eb. congruence.
Qed.

(** A list sorted by key is determined by its runs of equal keys. *)
Lemma StronglySorted_with_key_eq l1 l2 :
  StronglySorted key_le l1 -> StronglySorted key_le l2 ->
  (forall n, with_key n l1 = with_key n l2) -> l1 = l2.
Proof.
  intros H1. revert l2.
  induction H1 as [|x l1 Hl1 IH Hx]; intros l2 H2 Heq.
  - destruct l2 as [|y l2]; [reflexivity|].
    specialize (Heq (key y)). unfold with_key in Heq. cbn [List.filter] in Heq.
    rewrite Nat.eqb_refl in Heq. discriminate.
  - destruct H2 as [|y l2 Hl2 Hy].
    + specialize (Heq (key x)). unfold with_key in Heq. cbn [List.filter] in Heq.
      rewrite Nat.eqb_refl in Heq. discriminate.
    + assert (Hxy : key x = key y).
      { apply Nat.le_antisymm.
        - assert (Hin : In y (with_key (key y) (x :: l1))).
          { rewrite Heq. apply with_key_In. split; [now left | reflexivity]. }
          apply with_key_In in Hin. destruct Hin as [[<-|Hin] _]; [lia|].
          rewrite List.Forall_forall in Hx. exact (Hx _ Hin).
        - assert (Hin : In x (with_key (key x) (y :: l2))).
          { rewrite <- Heq. apply with_key_In. split; [now left | reflexivity]. }
          apply with_key_In in Hin. destruct Hin as [[<-|Hin] _]; [lia|].
          rewrite List.Forall_forall in Hy. exact (Hy _ Hin). }
      assert (Hhead := Heq (key x)).
      unfold with_key in Hhead. cbn [List.filter] in Hhead.
      rewrite <- Hxy, Nat.eqb_refl in Hhead.
      injection Hhead as -> Htail.
      f_equal. apply IH; [exact Hl2|].
      intros n. specialize (Heq n). unfold with_key in *. cbn [List.filter] in Heq.
      destruct (key y =? n)%nat eqn:E; [|exact Heq].
      now injection Heq.
Qed.

(** Two inputs that agree on every run of equal keys are sorted alike. *)
Lemma sorted_determined l1 l2 :
  (forall n, with_key n l1 = with_key n l2) -> sorted l1 key = sorted l2 key.
Proof.
  intros H. apply StronglySorted_with_key_eq; try apply sorted_StronglySorted.
  intros n. now rewrite !with_key_sorted.
Qed.

End Sorted.

(** C9, as the code has it: [find_all_checkpoints] returns the paths that
    [rglob] yielded (a permutation of them), by increasing length, paths of
    equal length in the order [rglob] yielded them; so two enumerations give
    the same result whenever they agree on the order of paths of equal
    length. *)
Theorem find_all_checkpoints_stable_by_length
    (rglob : string -> string -> list string) (cfg : Config) :
  let found := rglob (output_path cfg) "*.pt" in
  let result := Pipeliner.find_all_checkpoints rglob cfg in
  Permutation result found /\
  StronglySorted (fun p q => (String.length p <= String.length q)%nat) result /\
  (forall n, with_key String.length n result = with_key String.length n found) /\
  (forall rglob' : string -> string -> list string,
      (forall n, with_key String.length n (rglob' (output_path cfg) "*.pt")
                 = with_key String.length n found) ->
      Pipeliner.find_all_checkpoints rglob' cfg = result).
Proof.
  cbv zeta. unfold Pipeliner.find_all_checkpoints.
  split; [apply sorted_Permutation|].
  split; [apply (sorted_StronglySorted String.length)|].
  split; [intros n; apply with_key_sorted|].
  intros rglob' H. now apply sorted_determined.
Qed.

Lemma find_all_checkpoints_stable_by_length_witness :
  Pipeliner.find_all_checkpoints listing_best_7 example_config
  = Pipeliner.find_all_checkpoints listing_7_best example_config.
Proof.
  destruct (find_all_checkpoints_stable_by_length listing_7_best example_config)
    as (_ & _ & _ & H).
  apply H. intros n. apply (with_key_swap String.length). simpl. lia.
Defined.

(** C9, as stated, fails: the same file set, enumerated in two orders, is
    returned in two orders, because both paths have the same length. *)
Lemma find_all_checkpoints_depends_on_enumeration :
  Permutation (listing_12 "out" "*.pt") (listing_21 "out" "*.pt") /\
  Pipeliner.find_all_checkpoints listing_12 example_config
  = ["out/checkpoint.1.pt"; "out/checkpoint.2.pt"] /\
  Pipeliner.find_all_checkpoints listing_21 example_config
  = ["out/checkpoint.2.pt"; "out/checkpoint.1.pt"].
Proof.
  split; [apply perm_swap|]. split; reflexivity.
Qed.

(** ** Loading a checkpoint *)

(** [not self.config.is_finetuning and train] *)
Definition resuming (cfg : Config) (train : bool) : bool :=
  negb (is_finetuning cfg) && train.

Ltac run_load :=
  unfold _load_checkpoint, network_load_checkpoint, torch_load, dispatch_event,
    emit, gets, modify, bind, ret, raise; simpl.

(** Without a configured path, or without the file, the load fails with
    [CheckpointNotFound] and leaves the executor as it was. *)
Lemma load_checkpoint_not_found train s :
  (match checkpoint_path (config (self s)) with
   | None => True
   | Some p => files (world s) !! p = None
   end) ->
  exists s', _load_checkpoint train s = (s', Raise CheckpointNotFound) /\
             self s' = self s.
Proof.
  intros H. run_load.
  destruct (checkpoint_path (config (self s))) as [p|]; simpl.
  - rewrite H. eexists. split; reflexivity.
  - eexists. split; reflexivity.
Qed.

(** With the file in place and a ["model"] entry in it, the load returns. *)
Lemma load_checkpoint_returns train s p info w :
  checkpoint_path (config (self s)) = Some p ->
  files (world s) !! p = Some info ->
  info !! "model" = Some w ->
  exists s', _load_checkpoint train s = (s', Return tt).
Proof.
  intros Hp Hf Hm. run_load. rewrite Hp. simpl. rewrite Hf, Hm. simpl.
  destruct (negb (is_finetuning (config (self s))) && train); simpl;
    [|eexists; reflexivity].
  rewrite Hf. simpl.
  destruct (optimizer (self s)), (info !! "optimizer"); simpl;
    destruct (scheduler (self s)), (info !! "scheduler"); simpl;
    destruct (info !! "epoch"); simpl; eexists; reflexivity.
Qed.

(** What a returning call leaves in the three attributes of [self] that a
    checkpoint can restore. *)
Definition restored_optimizer (resume : bool) (info : checkpoint)
    (o : option Optimizer) : option Optimizer :=
  if resume then
    match o, info !! "optimizer" with
    | Some o', Some st => Some (optimizer_load_state_dict st o')
    | _, _ => o
    end
  else o.

Definition restored_scheduler (resume : bool) (info : checkpoint)
    (sc : option Scheduler) : option Scheduler :=
  if resume then
    match sc, info !! "scheduler" with
    | Some sc', Some st => Some (scheduler_load_state_dict st sc')
    | _, _ => sc
    end
  else sc.

Definition restored_epoch (resume : bool) (info : checkpoint) (ep : pyvalue)
    : pyvalue :=
  if resume then
    match info !! "epoch" with
    | Some ep' => ep'
    | None => ep
    end
  else ep.

(** A returning call has read the file at the configured path; the network
    holds its ["model"] entry and the three attributes are as above. *)
Lemma load_checkpoint_inv train s s' :
  _load_checkpoint train s = (s', Return tt) ->
  exists p info,
    checkpoint_path (config (self s)) = Some p /\
    files (world s) !! p = Some info /\
    info !! "model" = Some (net_state (network (self s'))) /\
    optimizer (self s')
      = restored_optimizer (resuming (config (self s)) train) info (optimizer (self s)) /\
    scheduler (self s')
      = restored_scheduler (resuming (config (self s)) train) info (scheduler (self s)) /\
    _start_epoch (self s')
      = restored_epoch (resuming (config (self s)) train) info (_start_epoch (self s)).
Proof.
  unfold resuming, restored_optimizer, restored_scheduler, restored_epoch.
  intros H. revert H. run_load.
  destruct (checkpoint_path (config (self s))) as [p|] eqn:Hp; simpl; [|discriminate].
  destruct (files (world s) !! p) as [info|] eqn:Hf; simpl; [|discriminate].
  destruct (info !! "model") as [w|] eqn:Hm; simpl; [|discriminate].
  intros H. exists p, info.
  destruct (negb (is_finetuning (config (self s))) && train) eqn:Hr; simpl in H.
  - rewrite Hf in H. simpl in H.
    destruct (optimizer (self s)) as [o|] eqn:Ho,
             (info !! "optimizer") as [so|] eqn:Hio; simpl in H;
    destruct (scheduler (self s)) as [sc|] eqn:Hs,
             (info !! "scheduler") as [ss|] eqn:His; simpl in H;
    destruct (info !! "epoch") as [ep|] eqn:Hie; simpl in H;
    injection H as <-; simpl; repeat split; congruence.
  - injection H as <-; simpl. repeat split; congruence.
Qed.

(** C3.  A call of [_load_checkpoint] that returns has read the file at the
    configured path and
    - has restored the network's weights from it, whatever [train] is;
    - has left the optimizer state, the scheduler state and the start epoch
      as they were unless [train] is true and the configuration is not in
      fine-tuning mode, and has left each of the three as it was when its key
      is absent from the file;
    - when [train] is true, outside fine-tuning mode, has restored each of
      the three whose key is present (the optimizer and the scheduler when the
      executor holds one). *)
Theorem load_checkpoint_restores (train : bool) (s s' : State) :
  _load_checkpoint train s = (s', Return tt) ->
  exists p info,
    checkpoint_path (config (self s)) = Some p /\
    files (world s) !! p = Some info /\
    info !! "model" = Some (net_state (network (self s'))) /\
    (resuming (config (self s)) train = false ->
       optimizer (self s') = optimizer (self s) /\
       scheduler (self s') = scheduler (self s) /\
       _start_epoch (self s') = _start_epoch (self s)) /\
    (info !! "optimizer" = None -> optimizer (self s') = optimizer (self s)) /\
    (info !! "scheduler" = None -> scheduler (self s') = scheduler (self s)) /\
    (info !! "epoch" = None -> _start_epoch (self s') = _start_epoch (self s)) /\
    (resuming (config (self s)) train = true ->
       (forall o st, optimizer (self s) = Some o -> info !! "optimizer" = Some st ->
                     optimizer (self s') = Some (optimizer_load_state_dict st o)) /\
       (forall sc st, scheduler (self s) = Some sc -> info !! "scheduler" = Some st ->
                     scheduler (self s') = Some (scheduler_load_state_dict st sc)) /\
       (forall ep, info !! "epoch" = Some ep -> _start_epoch (self s') = ep)).
Proof.
  intros H. destruct (load_checkpoint_inv _ _ _ H) as (p & info & Hp & Hf & Hm & Ho & Hs & He).
  exists p, info. rewrite Ho, Hs, He.
  unfold restored_optimizer, restored_scheduler, restored_epoch.
  split; [exact Hp|]. split; [exact Hf|]. split; [exact Hm|].
  split. { intros ->. auto. }
  split. { intros ->. destruct (resuming _ _), (optimizer (self s)); reflexivity. }
  split. { intros ->. destruct (resuming _ _), (scheduler (self s)); reflexivity. }
  split. { intros ->. destruct (resuming _ _); reflexivity. }
  intros ->. split; [|split].
  - intros o st -> ->. reflexivity.
  - intros sc st -> ->. reflexivity.
  - intros ep ->. reflexivity.
Qed.

Lemma load_checkpoint_restores_witness :
  _start_epoch (self (fst (_load_checkpoint true example_state))) = VInt 7 /\
  optimizer (self (fst (_load_checkpoint true example_state)))
  = Some {| opt_state := VInt 12; param_groups := [0.001%float] |}.
Proof.
  destruct (load_checkpoint_restores true example_state
              (fst (_load_checkpoint true example_state)) eq_refl)
    as (p & info & Hp & Hf & _ & _ & _ & _ & _ & Hres).
  injection Hp as <-. vm_compute in Hf. injection Hf as <-.
  destruct (Hres eq_refl) as (Ho & _ & He). split.
  - apply He. reflexivity.
  - apply (Ho _ (VInt 12) eq_refl). reflexivity.
Defined.

(** C4, as the code has it.  The three attributes are restored one by one,
    each under its own test.  They are restored together when [train] is
    true outside fine-tuning mode, the file holds the three keys and the
    executor holds an optimizer and a scheduler; none is restored when
    [train] is false or in fine-tuning mode; in between, each is restored or
    left as it was according to its own key. *)
Theorem load_checkpoint_restores_each_by_its_key (train : bool) (s s' : State) :
  _load_checkpoint train s = (s', Return tt) ->
  exists p info,
    checkpoint_path (config (self s)) = Some p /\
    files (world s) !! p = Some info /\
    (resuming (config (self s)) train = false ->
       optimizer (self s') = optimizer (self s) /\
       scheduler (self s') = scheduler (self s) /\
       _start_epoch (self s') = _start_epoch (self s)) /\
    (resuming (config (self s)) train = true ->
       forall o sc so ss ep,
         optimizer (self s) = Some o -> scheduler (self s) = Some sc ->
         info !! "optimizer" = Some so -> info !! "scheduler" = Some ss ->
         info !! "epoch" = Some ep ->
         optimizer (self s') = Some (optimizer_load_state_dict so o) /\
         scheduler (self s') = Some (scheduler_load_state_dict ss sc) /\
         _start_epoch (self s') = ep) /\
    (resuming (config (self s)) train = true ->
       optimizer (self s')
         = match optimizer (self s), info !! "optimizer" with
           | Some o, Some st => Some (optimizer_load_state_dict st o)
           | _, _ => optimizer (self s)
           end /\
       scheduler (self s')
         = match scheduler (self s), info !! "scheduler" with
           | Some sc, Some st => Some (scheduler_load_state_dict st sc)
           | _, _ => scheduler (self s)
           end /\
       _start_epoch (self s')
         = match info !! "epoch" with
           | Some ep => ep
           | None => _start_epoch (self s)
           end).
Proof.
  intros H. destruct (load_checkpoint_inv _ _ _ H) as (p & info & Hp & Hf & _ & Ho & Hs & He).
  exists p, info. rewrite Ho, Hs, He.
  unfold restored_optimizer, restored_scheduler, restored_epoch.
  split; [exact Hp|]. split; [exact Hf|].
  split. { intros ->. auto. }
  split.
  - intros -> o sc so ss ep -> -> -> -> ->. auto.
  - intros ->. auto.
Qed.

Lemma load_checkpoint_restores_each_by_its_key_witness :
  optimizer (self (fst (_load_checkpoint false example_state)))
  = optimizer (self example_state) /\
  scheduler (self (fst (_load_checkpoint false example_state)))
  = scheduler (self example_state) /\
  _start_epoch (self (fst (_load_checkpoint false example_state)))
  = _start_epoch (self example_state).
Proof.
  destruct (load_checkpoint_restores_each_by_its_key false example_state
              (fst (_load_checkpoint false example_state)) eq_refl)
    as (p & info & _ & _ & Hnone & _).
  apply Hnone. reflexivity.
Defined.

(** C4, as stated, fails: from a file that holds the weights and the epoch
    only, a training load restores the start epoch and leaves the optimizer
    and the scheduler as they were. *)
Lemma load_checkpoint_restores_epoch_alone :
  exists s' info,
    _load_checkpoint true partial_state = (s', Return tt) /\
    files (world partial_state) !! "out/partial.pt" = Some info /\
    info !! "epoch" = Some (VInt 7) /\
    info !! "optimizer" = None /\
    info !! "scheduler" = None /\
    _start_epoch (self partial_state) = VInt 0 /\
    _start_epoch (self s') = VInt 7 /\
    optimizer (self s') = optimizer (self partial_state) /\
    scheduler (self s') = scheduler (self partial_state).
Proof.
  exists (fst (_load_checkpoint true partial_state)), weights_and_epoch_checkpoint.
  repeat split; reflexivity.
Qed.

(** ** Saving a checkpoint *)

(** The mapping [Trainer.save] builds, and the file it writes to. *)
Definition checkpoint_info (epoch : Z) (e : Executor) (o : Optimizer) (sc : Scheduler)
    : checkpoint :=
  <["epoch" := VInt epoch]>
    (<["model" := net_state (network e)]>
       (<["optimizer" := opt_state o]> (<["scheduler" := sched_state sc]> ∅))).

Definition checkpoint_suffix (cfg : Config) (epoch : Z) : string :=
  if overwrite_checkpoint cfg then "best" else pretty epoch.

Definition checkpoint_file (cfg : Config) (epoch : Z) : string :=
  path_join (output_path cfg) ("checkpoint." +:+ checkpoint_suffix cfg epoch +:+ ".pt").

Lemma checkpoint_info_keys epoch e o sc k :
  is_Some (checkpoint_info epoch e o sc !! k) <->
  k = "epoch" \/ k = "model" \/ k = "optimizer" \/ k = "scheduler".
Proof.
  unfold checkpoint_info. rewrite !lookup_insert_is_Some, lookup_empty.
  split.
  - intros [H|[_ [H|[_ [H|[_ [H|[_ H]]]]]]]]; subst; auto.
    destruct H as [x Hx]. discriminate Hx.
  - intros [-> | [-> | [-> | ->]]].
    + left; reflexivity.
    + right; split; [discriminate|]. left; reflexivity.
    + right; split; [discriminate|]. right; split; [discriminate|]. left; reflexivity.
    + right; split; [discriminate|]. right; split; [discriminate|].
      right; split; [discriminate|]. left; reflexivity.
Qed.

(** What a call of [save] does, for any observers. *)
Lemma save_spec fw epoch s o sc :
  optimizer (self s) = Some o -> scheduler (self s) = Some sc ->
  let info := before_checkpoint_save fw (checkpoint_info epoch (self s) o sc) in
  let path := checkpoint_file (config (self s)) epoch in
  Trainer.save fw epoch s
  = ({| self := self s;
        world := {| files := <[path := info]> (files (world s));
                    trace := trace (world s)
                             ++ [LogInfo (Text ("Saving checkpoint: " +:+ path));
                                 Dispatch "before_checkpoint_save";
                                 TorchSave path info] |} |},
     Return tt).
Proof.
  intros Ho Hs. unfold Trainer.save, bind, gets, the, ret, emit, dispatch_event.
  simpl. rewrite Ho. simpl. rewrite Hs. simpl.
  rewrite <- !app_assoc. reflexivity.
Qed.

(** C7, as the code has it.  [save] builds a mapping with exactly the four
    entries [epoch], [model], [optimizer] and [scheduler], hands it to the
    observers of [before_checkpoint_save], and writes what they leave in it
    to [checkpoint.<suffix>.pt] under the output directory, where the suffix
    is ["best"] when the configuration overwrites a single file and the
    epoch number otherwise.  When the observers leave the mapping as it is,
    the file holds exactly the four entries. *)
Theorem save_writes_checkpoint (fw : Framework) (epoch : Z) (s : State)
    (o : Optimizer) (sc : Scheduler) :
  optimizer (self s) = Some o -> scheduler (self s) = Some sc ->
  let built := checkpoint_info epoch (self s) o sc in
  let path := path_join (output_path (config (self s)))
                ("checkpoint."
                 +:+ (if overwrite_checkpoint (config (self s)) then "best"
                      else pretty epoch)
                 +:+ ".pt") in
  exists s',
    Trainer.save fw epoch s = (s', Return tt) /\
    self s' = self s /\
    (forall k, is_Some (built !! k) <->
               k = "epoch" \/ k = "model" \/ k = "optimizer" \/ k = "scheduler") /\
    built !! "epoch" = Some (VInt epoch) /\
    built !! "model" = Some (net_state (network (self s))) /\
    built !! "optimizer" = Some (opt_state o) /\
    built !! "scheduler" = Some (sched_state sc) /\
    files (world s') !! path = Some (before_checkpoint_save fw built) /\
    (forall other, other <> path ->
                   files (world s') !! other = files (world s) !! other) /\
    last (trace (world s')) = Some (TorchSave path (before_checkpoint_save fw built)) /\
    (before_checkpoint_save fw built = built ->
     files (world s') !! path = Some built).
Proof.
  intros Ho Hs built path. eexists. split; [apply (save_spec fw epoch s o sc Ho Hs)|].
  cbn [self world files trace].
  split; [reflexivity|].
  split; [intros k; apply checkpoint_info_keys|].
  split; [reflexivity|]. split; [reflexivity|].
  split; [reflexivity|]. split; [reflexivity|].
  split; [apply lookup_insert_eq|].
  split; [intros other Hne; apply lookup_insert_ne; intros Heq; apply Hne; symmetry; exact Heq|].
  split.
  - rewrite last_app. reflexivity.
  - intros Heq. rewrite lookup_insert_eq. f_equal. exact Heq.
Qed.

Lemma save_writes_checkpoint_witness :
  files (world (fst (Trainer.save example_framework 2 example_state)))
    !! "out/checkpoint.2.pt"
  = Some (checkpoint_info 2 (self example_state)
            {| opt_state := VInt 2; param_groups := [0.001%float] |}
            {| sched_state := VInt 3 |}).
Proof.
  destruct (save_writes_checkpoint example_framework 2 example_state _ _ eq_refl eq_refl)
    as (s' & Hrun & _ & _ & _ & _ & _ & _ & _ & _ & _ & Hsame).
  assert (Hs' : s' = fst (Trainer.save example_framework 2 example_state))
    by (rewrite Hrun; reflexivity).
  rewrite <- Hs'. apply Hsame. reflexivity.
Defined.

(** C7, as stated, fails: with an observer of [before_checkpoint_save] that
    adds an entry to the payload, the file written by [save] holds a fifth
    entry. *)
Lemma save_writes_what_observers_leave :
  exists s' saved,
    Trainer.save (with_save_observer add_sigma example_framework) 2 example_state
    = (s', Return tt) /\
    files (world s') !! "out/checkpoint.2.pt" = Some saved /\
    saved !! "sigma" = Some (VFloat 0.5%float) /\
    saved !! "epoch" = Some (VInt 2).
Proof.
  exists (fst (Trainer.save (with_save_observer add_sigma example_framework) 2
                 example_state)),
         (add_sigma (checkpoint_info 2 (self example_state)
                       {| opt_state := VInt 2; param_groups := [0.001%float] |}
                       {| sched_state := VInt 3 |})).
  split; [reflexivity|]. split; [reflexivity|]. split; reflexivity.
Qed.

(** ** Probing *)

(** Device transfer does not touch the executor's attributes. *)
Lemma to_device_entry_self dev v s s' o :
  to_device_entry dev v s = (s', o) -> self s' = self s.
Proof.
  unfold to_device_entry.
  destruct (to_device_value dev v) as [v'|e].
  - intros [= <- _]. reflexivity.
  - destruct (is_attribute_or_value_error e).
    + unfold bind, emit, ret. simpl. intros [= <- _]. reflexivity.
    + intros [= <- _]. reflexivity.
Qed.

Lemma to_device_items_self dev items s s' o :
  to_device_items dev items s = (s', o) -> self s' = self s.
Proof.
  revert s s' o. induction items as [|[k v] items IH]; intros s s' o.
  - intros [= <- _]. reflexivity.
  - cbn [to_device_items]. unfold bind at 1.
    destruct (to_device_entry dev v s) as [s1 [v'|e]] eqn:Ev.
    + apply to_device_entry_self in Ev. unfold bind at 1.
      destruct (to_device_items dev items s1) as [s2 [r|e]] eqn:Er.
      * apply IH in Er. intros [= <- _]. congruence.
      * apply IH in Er. intros [= <- _]. congruence.
    + apply to_device_entry_self in Ev. intros [= <- _]. exact Ev.
Qed.

Lemma to_device_self batch s s' o :
  _to_device batch s = (s', o) -> self s' = self s.
Proof.
  unfold _to_device, bind, gets, lift, ret.
  destruct (to (_device (self s)) (outputs batch)) as [out|e].
  - destruct (to_device_items (_device (self s)) (inputs batch) s) as [s1 [r|e]] eqn:E;
      apply to_device_items_self in E; intros [= <- _]; exact E.
  - intros [= <- _]. reflexivity.
Qed.

Definition probing_ensemble_error : exn :=
  ValueError
    ("Probing hidden layers is not defined for Ensembles."
     +:+ " Please change 'probe_layer' parameter to 'null' or use a different type of network.").

Lemma set_hook_probe_ensemble s :
  is_EnsembleNetwork (network (self s)) = true ->
  Predictor.set_hook_probe s = (s, Raise probing_ensemble_error).
Proof.
  intros H. unfold Predictor.set_hook_probe. rewrite bind_gets, H. reflexivity.
Qed.

Lemma set_hook_probe_attaches s :
  is_EnsembleNetwork (network (self s)) = false ->
  Predictor.set_hook_probe s
  = ({| self := set_probe (Some (mkHookProbe (network (self s))
                                   (probe_layer (config (self s))))) (self s);
        world := world s |}, Return tt).
Proof.
  intros H. unfold Predictor.set_hook_probe. rewrite bind_gets, H, bind_gets.
  reflexivity.
Qed.

(** X13.  With a probe layer configured, [Predictor.run] on an ensemble
    raises: once the batch is on the device the error is the configuration
    error of [set_hook_probe], raised before any event is dispatched and
    before a probe is attached.  On a network that is not an ensemble the
    probe is attached to the network, [before_predict] is dispatched and no
    [ValueError] is raised. *)
Theorem predictor_probe_ensemble (fw : Framework) (batch : Batch) (s : State)
    (layer : string) :
  probe_layer (config (self s)) = Some layer ->
  (is_EnsembleNetwork (network (self s)) = true ->
     exists s' e,
       Predictor.run fw batch s = (s', Raise e) /\
       (is_Return (snd (_to_device batch s)) = true ->
          e = probing_ensemble_error /\ s' = fst (_to_device batch s))) /\
  (is_EnsembleNetwork (network (self s)) = false ->
     is_Return (snd (_to_device batch s)) = true ->
     exists s' o,
       Predictor.run fw batch s = (s', o) /\
       probe (self s') = Some (mkHookProbe (network (self s)) (Some layer)) /\
       In (Dispatch "before_predict") (trace (world s')) /\
       forall msg, o <> Raise (ValueError msg)).
Proof.
  intros Hl. unfold Predictor.run.
  destruct (_to_device batch s) as [s1 [b|e0]] eqn:E;
    pose proof (to_device_self _ _ _ _ E) as Hself.
  - rewrite (bind_Return _ _ _ _ _ E), bind_gets, Hself, Hl.
    assert (Hens1 : is_EnsembleNetwork (network (self s1))
                    = is_EnsembleNetwork (network (self s)))
      by (rewrite Hself; reflexivity).
    split.
    + intros Hens. rewrite <- Hens1 in Hens.
      rewrite (bind_Raise _ _ _ _ _ (set_hook_probe_ensemble s1 Hens)).
      eexists _, _. split; [reflexivity|]. intros _. split; reflexivity.
    + intros Hens _. rewrite <- Hens1 in Hens.
      rewrite (bind_Return _ _ _ _ _ (set_hook_probe_attaches s1 Hens)).
      unfold dispatch_event. rewrite bind_emit, bind_gets. cbn [self world files trace].
      rewrite Hself, Hl.
      destruct (if String.eqb (inference_mode (config (self s))) "mc_dropout"
                then _ else _) as [t|t|d|l| | | |].
      all: try (rewrite bind_raise; eexists _, _; split; [reflexivity|];
                cbn [self world files trace probe set_probe];
                split; [reflexivity|]; split;
                [apply in_or_app; right; left; reflexivity
                | intros msg; discriminate]).
      all: rewrite bind_ret, bind_gets; cbn [self world files trace probe set_probe];
           match goal with
           | |- context [dict_get "features" ?d] => destruct (dict_get "features" d)
           end;
           [ rewrite bind_raise; eexists _, _; split; [reflexivity|];
             cbn [self world files trace probe set_probe];
             split; [reflexivity|]; split;
             [apply in_or_app; right; left; reflexivity
             | intros msg; discriminate]
           | rewrite bind_ret, bind_emit; eexists _, _; split; [reflexivity|];
             cbn [self world files trace probe set_probe];
             split; [reflexivity|]; split;
             [apply in_or_app; left; apply in_or_app; right; left; reflexivity
             | intros msg; discriminate] ].
  - rewrite (bind_Raise _ _ _ _ _ E). split.
    + intros _. eexists _, _. split; [reflexivity|]. discriminate.
    + intros _. discriminate.
Qed.

Lemma predictor_probe_ensemble_witness :
  snd (Predictor.run example_framework example_batch ensemble_state)
  = Raise probing_ensemble_error.
Proof.
  destruct (predictor_probe_ensemble example_framework example_batch ensemble_state
              "fc1" eq_refl) as [H _].
  destruct (H eq_refl) as (s' & e & Hrun & He).
  rewrite Hrun. cbn [snd]. f_equal. apply He. reflexivity.
Defined.

(** ** What a computation writes to the trace *)

(** [emits P m]: whatever [m] does, it only appends events that satisfy [P]
    to the trace, it leaves the events already there in place, and it does
    not rebind [self.config]. *)
Definition emits {A} (P : io_event -> Prop) (m : M A) : Prop :=
  forall s s' o, m s = (s', o) ->
    config (self s') = config (self s) /\
    exists evs, trace (world s') = (trace (world s) ++ evs)%list /\ Forall P evs.

Section Emits.
Context (P : io_event -> Prop).

Lemma emits_silent {A} (m : M A) :
  (forall s s' o, m s = (s', o) ->
     world s' = world s /\ config (self s') = config (self s)) ->
  emits P m.
Proof.
  intros H s s' o E. destruct (H _ _ _ E) as [Hw Hc]. split; [exact Hc|].
  exists []. rewrite Hw, app_nil_r. split; [reflexivity | constructor].
Qed.

Lemma emits_ret {A} (a : A) : emits P (ret a).
Proof. apply emits_silent. intros s s' o [= <- _]. split; reflexivity. Qed.

Lemma emits_raise {A} (e : exn) : emits P (@raise A e).
Proof. apply emits_silent. intros s s' o [= <- _]. split; reflexivity. Qed.

Lemma emits_lift {A} (r : outcome A) : emits P (lift r).
Proof. apply emits_silent. intros s s' o [= <- _]. split; reflexivity. Qed.

Lemma emits_gets {A} (f : Executor -> A) : emits P (gets f).
Proof. apply emits_silent. intros s s' o [= <- _]. split; reflexivity. Qed.

Lemma emits_modify (f : Executor -> Executor) :
  (forall e, config (f e) = config e) -> emits P (modify f).
Proof.
  intros Hf. apply emits_silent. intros s s' o [= <- _].
  split; [reflexivity | apply Hf].
Qed.

Lemma emits_the {A} (o : option A) : emits P (the o).
Proof. destruct o; [apply emits_ret | apply emits_raise]. Qed.

Lemma emits_emit (ev : io_event) : P ev -> emits P (emit ev).
Proof.
  intros H s s' o [= <- _]. split; [reflexivity|].
  exists [ev]. split; [reflexivity|].
  constructor; [exact H | constructor].
Qed.

Lemma emits_bind {A B} (m : M A) (k : A -> M B) :
  emits P m -> (forall a, emits P (k a)) -> emits P (bind m k).
Proof.
  intros Hm Hk s s' o. unfold bind.
  destruct (m s) as [s1 [a|e]] eqn:E.
  - intros Ek. destruct (Hm _ _ _ E) as (C1 & evs1 & T1 & F1).
    destruct (Hk a _ _ _ Ek) as (C2 & evs2 & T2 & F2).
    split; [congruence|].
    exists (evs1 ++ evs2)%list. rewrite T2, T1, app_assoc.
    split; [reflexivity | apply Forall_app; split; assumption].
  - intros [= <- _]. exact (Hm _ _ _ E).
Qed.

Lemma emits_for_each {A} (l : list A) (body : A -> M unit) :
  (forall a, emits P (body a)) -> emits P (for_each l body).
Proof.
  intros H. induction l as [|x l IH]; cbn [for_each].
  - apply emits_ret.
  - apply emits_bind; [apply H | intros _; exact IH].
Qed.

Lemma emits_for_fold {A B} (l : list A) (acc : B) (body : B -> A -> M B) :
  (forall b a, emits P (body b a)) -> emits P (for_fold l acc body).
Proof.
  intros H. revert acc. induction l as [|x l IH]; intros acc; cbn [for_fold].
  - apply emits_ret.
  - apply emits_bind; [apply H | intros b; apply IH].
Qed.

Lemma emits_for_break {A} (l : list A) (body : A -> M bool) :
  (forall a, emits P (body a)) -> emits P (for_break l body).
Proof.
  intros H. induction l as [|x l IH]; cbn [for_break].
  - apply emits_ret.
  - apply emits_bind; [apply H|]. intros [|]; [apply emits_ret | exact IH].
Qed.

End Emits.

Lemma emits_weaken {A} (P Q : io_event -> Prop) (m : M A) :
  (forall ev, P ev -> Q ev) -> emits P m -> emits Q m.
Proof.
  intros H Hm s s' o E. destruct (Hm _ _ _ E) as (C & evs & T & F).
  split; [exact C|].
  exists evs. split; [exact T|]. eapply List.Forall_impl; [exact H | exact F].
Qed.

(** Applies the rules above along the structure of a computation. *)
Create HintDb emits.

Ltac emits_step :=
  first
    [ apply emits_ret | apply emits_raise | apply emits_lift | apply emits_gets
    | apply emits_modify; intros; reflexivity | apply emits_the
    | apply emits_emit
    | apply emits_for_each; intros
    | apply emits_for_fold; intros
    | apply emits_for_break; intros
    | apply emits_bind; [|intros] ].

Ltac emits_auto :=
  repeat first
    [ assumption
    | solve [auto with emits nocore]
    | emits_step
    | progress cbv zeta
    | match goal with
      | |- emits _ (if ?c then _ else _) => destruct c
      | |- emits _ (match ?x with _ => _ end) => destruct x
      | |- is_true _ => exact I
      end
    | exact I ].

Definition is_debug (ev : io_event) : Prop :=
  match ev with LogDebug _ => True | _ => False end.

Definition is_dispatch (ev : io_event) : Prop :=
  match ev with Dispatch _ => True | _ => False end.

(** Device transfer only writes debug messages. *)
Lemma to_device_items_emits dev items : emits is_debug (to_device_items dev items).
Proof.
  induction items as [|[k v] items IH]; cbn [to_device_items]; [emits_auto|].
  unfold to_device_entry. emits_auto.
Qed.

Lemma to_device_emits batch : emits is_debug (_to_device batch).
Proof.
  unfold _to_device. emits_auto. apply to_device_items_emits.
Qed.

(** Loading a checkpoint only dispatches events. *)
Lemma network_load_checkpoint_emits P path dev :
  emits P (network_load_checkpoint path dev).
Proof.
  apply emits_silent. intros s s' o. unfold network_load_checkpoint.
  destruct path as [p|]; [|intros [= <- _]; split; reflexivity].
  destruct (files (world s) !! p) as [info|]; [|intros [= <- _]; split; reflexivity].
  destruct (info !! "model"); intros [= <- _]; split; reflexivity.
Qed.

Lemma torch_load_emits P path : emits P (torch_load path).
Proof.
  apply emits_silent. intros s s' o. unfold torch_load.
  destruct path as [p|]; [|intros [= <- _]; split; reflexivity].
  destruct (files (world s) !! p); intros [= <- _]; split; reflexivity.
Qed.

#[local] Hint Resolve network_load_checkpoint_emits torch_load_emits : emits.

Lemma load_checkpoint_emits train : emits is_dispatch (_load_checkpoint train).
Proof.
  unfold _load_checkpoint, dispatch_event. emits_auto.
Qed.

(** ** The epoch loop of the trainer *)

(** The two events of an epoch that outlive the run: a checkpoint written
    and a line appended to [logs.txt]. *)
Inductive milestone :=
| Saved (path : string)
| Logged (line : log_line).

Definition milestone_of (ev : io_event) : option milestone :=
  match ev with
  | TorchSave path _ => Some (Saved path)
  | FileAppend _ line => Some (Logged line)
  | _ => None
  end.

Definition milestones (evs : list io_event) : list milestone :=
  omap milestone_of evs.

Definition quiet (ev : io_event) : Prop := milestone_of ev = None.

Lemma milestones_app evs1 evs2 :
  milestones (evs1 ++ evs2) = (milestones evs1 ++ milestones evs2)%list.
Proof. apply omap_app. Qed.

Lemma milestones_quiet evs : Forall quiet evs -> milestones evs = [].
Proof.
  induction 1 as [|ev evs Hq _ IH]; [reflexivity|].
  change (milestones (ev :: evs))
    with (match milestone_of ev with
          | Some m => m :: milestones evs
          | None => milestones evs
          end).
  unfold quiet in Hq. rewrite Hq. exact IH.
Qed.

Lemma to_device_quiet batch : emits quiet (_to_device batch).
Proof.
  eapply emits_weaken; [|apply to_device_emits].
  intros [ | | | | | | ]; simpl; intros H; try contradiction; reflexivity.
Qed.

Lemma load_checkpoint_quiet train : emits quiet (_load_checkpoint train).
Proof.
  eapply emits_weaken; [|apply load_checkpoint_emits].
  intros [ | | | | | | ]; simpl; intros H; try contradiction; reflexivity.
Qed.

#[local] Hint Resolve to_device_quiet load_checkpoint_quiet : emits.

Lemma emits_except_CheckpointNotFound P body :
  emits P body -> emits P (except_CheckpointNotFound body).
Proof.
  intros H s s' o. unfold except_CheckpointNotFound.
  destruct (body s) as [s1 [[]|e]] eqn:E.
  - intros [= <- _]. exact (H _ _ _ E).
  - destruct e; intros [= <- _]; exact (H _ _ _ E).
Qed.

Section TrainerFacts.
Variable fw : Framework.

Lemma training_step_quiet batch epoch :
  emits quiet (Trainer._training_step fw batch epoch).
Proof.
  unfold Trainer._training_step, dispatch_event.
  emits_auto; try reflexivity.
Qed.

Lemma train_epoch_quiet loader epoch :
  emits quiet (Trainer._train_epoch fw loader epoch).
Proof.
  unfold Trainer._train_epoch.
  emits_auto; try apply training_step_quiet; try reflexivity.
Qed.

Lemma validation_quiet val_loader : emits quiet (Trainer._validation fw val_loader).
Proof.
  unfold Trainer._validation, Trainer.validation_step, dispatch_event.
  emits_auto; try reflexivity.
Qed.

Lemma setup_quiet init n : emits quiet (Trainer._setup fw init n).
Proof.
  unfold Trainer._setup.
  emits_auto; try reflexivity.
  apply emits_except_CheckpointNotFound. emits_auto; reflexivity.
Qed.

End TrainerFacts.

(** The decision of [_check_best], read off its branches: the best metric it
    hands back and whether the epoch is a new best; [None] where it raises
    (the target metric is missing from a non-empty result, or is empty). *)
Definition new_best_of (cfg : Config) (val_metrics : Namespace) (best : float)
    : option (float * bool) :=
  if is_empty_namespace val_metrics then Some (best, true)
  else
    match val_metrics !! target_metric cfg with
    | Some (target :: _) =>
        Some (if float_gt target best then target else best, float_gt target best)
    | _ => None
    end.

Section TrainerLoop.
Variable fw : Framework.

Lemma save_inv epoch s s' o :
  Trainer.save fw epoch s = (s', o) ->
  config (self s') = config (self s) /\
  exists evs,
    trace (world s') = (trace (world s) ++ evs)%list /\
    milestones evs
    = if is_Return o then [Saved (checkpoint_file (config (self s)) epoch)] else [].
Proof.
  destruct (optimizer (self s)) as [op|] eqn:Ho.
  - destruct (scheduler (self s)) as [sc|] eqn:Hs.
    + rewrite (save_spec fw epoch s op sc Ho Hs). cbv zeta. intros [= <- <-].
      split; [reflexivity|]. eexists. split; [reflexivity|]. reflexivity.
    + unfold Trainer.save. rewrite bind_gets, bind_bind, bind_gets, Ho.
      unfold the at 1. rewrite bind_ret, bind_bind, bind_gets, Hs.
      unfold the at 1. rewrite bind_raise. intros [= <- <-].
      split; [reflexivity|]. exists []. rewrite app_nil_r. split; reflexivity.
  - unfold Trainer.save. rewrite bind_gets, bind_bind, bind_gets, Ho.
    unfold the at 1. rewrite bind_raise. intros [= <- <-].
    split; [reflexivity|]. exists []. rewrite app_nil_r. split; reflexivity.
Qed.

Lemma check_best_inv epoch val_metrics best s s' o :
  Trainer._check_best fw epoch val_metrics best s = (s', o) ->
  config (self s') = config (self s) /\
  exists evs,
    trace (world s') = (trace (world s) ++ evs)%list /\
    match o with
    | Return (best', new_best) =>
        new_best_of (config (self s)) val_metrics best = Some (best', new_best) /\
        milestones evs
        = if new_best then [Saved (checkpoint_file (config (self s)) epoch)] else []
    | Raise _ => forall line, ~ In (Logged line) (milestones evs)
    end.
Proof.
  unfold Trainer._check_best, new_best_of. rewrite bind_gets.
  assert (Hsave : forall target,
    bind (Trainer.save fw epoch) (fun _ => ret (target, true)) s = (s', o) ->
    config (self s') = config (self s) /\
    exists evs,
      trace (world s') = (trace (world s) ++ evs)%list /\
      match o with
      | Return (best', new_best) =>
          (target, true) = (best', new_best) /\
          milestones evs
          = if new_best then [Saved (checkpoint_file (config (self s)) epoch)] else []
      | Raise _ => forall line, ~ In (Logged line) (milestones evs)
      end).
  { intros target. unfold bind.
    destruct (Trainer.save fw epoch s) as [s1 [[]|e]] eqn:E;
      destruct (save_inv _ _ _ _ E) as (C & evs & T & Hm); cbn [is_Return] in Hm;
      intros [= <- <-]; (split; [exact C|]); exists evs; (split; [exact T|]).
    - split; [reflexivity | exact Hm].
    - intros line. rewrite Hm. intros []. }
  destruct (is_empty_namespace val_metrics).
  - rewrite bind_ret. intros H. destruct (Hsave _ H) as (C & evs & T & Ho).
    split; [exact C|]. exists evs. split; [exact T|].
    destruct o as [[b nb]|e]; [|exact Ho].
    destruct Ho as [[= <- <-] Hm]. split; [reflexivity | exact Hm].
  - destruct (val_metrics !! target_metric (config (self s))) as [[|target rest]|].
    + rewrite bind_raise. intros [= <- <-]. split; [reflexivity|].
      exists []. rewrite app_nil_r. split; [reflexivity|]. intros line [].
    + rewrite bind_ret. destruct (float_gt target best).
      * intros H. destruct (Hsave _ H) as (C & evs & T & Ho).
        split; [exact C|]. exists evs. split; [exact T|].
        destruct o as [[b nb]|e]; [|exact Ho].
        destruct Ho as [[= <- <-] Hm]. split; [reflexivity | exact Hm].
      * intros [= <- <-]. split; [reflexivity|].
        exists []. rewrite app_nil_r. split; [reflexivity|]. split; reflexivity.
    + rewrite bind_raise. intros [= <- <-]. split; [reflexivity|].
      exists []. rewrite app_nil_r. split; [reflexivity|]. intros line [].
Qed.

Lemma check_first_values_silent val_metrics :
  emits (fun _ => False) (Trainer.check_first_values val_metrics).
Proof. unfold Trainer.check_first_values. emits_auto. Qed.

Lemma log_inv epoch val_metrics new_best s s' o :
  Trainer.log epoch val_metrics new_best s = (s', o) ->
  config (self s') = config (self s) /\
  exists evs,
    trace (world s') = (trace (world s) ++ evs)%list /\
    milestones evs
    = if is_Return o then [Logged (mkLogLine epoch val_metrics new_best)] else [].
Proof.
  unfold Trainer.log. unfold bind at 1.
  destruct (Trainer.check_first_values val_metrics s) as [s1 [[]|e]] eqn:E;
    destruct (check_first_values_silent _ _ _ _ E) as (C & evs & T & F);
    assert (evs = []) as -> by (destruct F as [|ev evs []]; reflexivity);
    rewrite app_nil_r in T.
  - unfold dispatch_event. rewrite bind_emit, bind_emit, bind_gets.
    intros [= <- <-]. cbn [self world files trace is_Return].
    split; [exact C|]. eexists. rewrite T, <- !app_assoc. split; reflexivity.
  - intros [= <- <-]. split; [exact C|]. exists []. rewrite app_nil_r.
    split; [exact T | reflexivity].
Qed.

End TrainerLoop.

Section EpochLoop.
Variable fw : Framework.

(** What one epoch leaves behind: a checkpoint when it is a new best, then
    its line. *)
Definition epoch_milestones (cfg : Config) (line : log_line) : list milestone :=
  ((if log_new_best line then [Saved (checkpoint_file cfg (log_epoch line))] else [])
   ++ [Logged line])%list.

Lemma validation_None s :
  Trainer._validation fw None s = (s, Return ∅).
Proof. reflexivity. Qed.

Lemma run_epoch_inv data val best epoch s s' o :
  Trainer.run_epoch fw data val best epoch s = (s', o) ->
  config (self s') = config (self s) /\
  exists evs,
    trace (world s') = (trace (world s) ++ evs)%list /\
    match o with
    | Return best' =>
        exists val_metrics new_best,
          new_best_of (config (self s)) val_metrics best = Some (best', new_best) /\
          (val = None -> val_metrics = ∅) /\
          milestones evs
          = epoch_milestones (config (self s)) (mkLogLine epoch val_metrics new_best)
    | Raise _ => forall line, ~ In (Logged line) (milestones evs)
    end.
Proof.
  unfold Trainer.run_epoch. unfold bind at 1.
  destruct (Trainer._train_epoch fw data epoch s) as [s1 [[]|e]] eqn:E1;
    destruct (train_epoch_quiet fw _ _ _ _ _ E1) as (C1 & evs1 & T1 & F1);
    apply milestones_quiet in F1.
  2:{ intros [= <- <-]. split; [exact C1|]. exists evs1. split; [exact T1|].
      intros line. rewrite F1. intros []. }
  unfold bind at 1.
  destruct (Trainer._validation fw val s1) as [s2 [vm|e]] eqn:E2;
    destruct (validation_quiet fw _ _ _ _ E2) as (C2 & evs2 & T2 & F2);
    apply milestones_quiet in F2.
  2:{ intros [= <- <-]. split; [congruence|]. exists (evs1 ++ evs2)%list.
      rewrite T2, T1, app_assoc. split; [reflexivity|].
      intros line. rewrite milestones_app, F1, F2. intros []. }
  unfold bind at 1.
  destruct (Trainer._check_best fw epoch vm best s2) as [s3 [[b nb]|e]] eqn:E3;
    destruct (check_best_inv fw _ _ _ _ _ _ E3) as (C3 & evs3 & T3 & H3).
  2:{ intros [= <- <-]. split; [congruence|]. exists (evs1 ++ evs2 ++ evs3)%list.
      rewrite T3, T2, T1, <- !app_assoc. split; [reflexivity|].
      intros line. rewrite !milestones_app, F1, F2. exact (H3 line). }
  destruct H3 as [Hdec Hm3]. cbn [snd fst]. unfold bind at 1.
  destruct (Trainer.log epoch vm nb s3) as [s4 [[]|e]] eqn:E4;
    destruct (log_inv _ _ _ _ _ _ E4) as (C4 & evs4 & T4 & Hm4);
    cbn [is_Return] in Hm4; intros [= <- <-].
  - split; [congruence|]. exists (evs1 ++ evs2 ++ evs3 ++ evs4)%list.
    rewrite T4, T3, T2, T1, <- !app_assoc. split; [reflexivity|].
    exists vm, nb. rewrite C2, C1 in Hdec, Hm3. split; [exact Hdec|]. split.
    + intros ->. rewrite validation_None in E2. injection E2 as _ <-. reflexivity.
    + rewrite !milestones_app, F1, F2, Hm3, Hm4. reflexivity.
  - split; [congruence|]. exists (evs1 ++ evs2 ++ evs3 ++ evs4)%list.
    rewrite T4, T3, T2, T1, <- !app_assoc. split; [reflexivity|].
    intros line. rewrite !milestones_app, F1, F2, Hm3, Hm4, app_nil_r. cbn [app].
    destruct nb; [intros [H|[]]; discriminate H | intros []].
Qed.

(** The lines of a run are decided one after the other, each against the
    best metric handed on by the one before. *)
Fixpoint decided (cfg : Config) (best : float) (lines : list log_line) : Prop :=
  match lines with
  | [] => True
  | line :: rest =>
      exists best',
        new_best_of cfg (log_val_metrics line) best = Some (best', log_new_best line) /\
        decided cfg best' rest
  end.

Lemma epoch_loop_returns data val l best s s' best' :
  for_fold l best (Trainer.run_epoch fw data val) s = (s', Return best') ->
  config (self s') = config (self s) /\
  exists evs lines,
    trace (world s') = (trace (world s) ++ evs)%list /\
    map log_epoch lines = l /\
    decided (config (self s)) best lines /\
    (val = None ->
       Forall (fun line => log_val_metrics line = ∅ /\ log_new_best line = true) lines) /\
    milestones evs = concat (map (epoch_milestones (config (self s))) lines).
Proof.
  revert best s. induction l as [|epoch l IH]; intros best s; cbn [for_fold].
  - intros [= <- _]. split; [reflexivity|]. exists [], [].
    rewrite app_nil_r. repeat split; constructor.
  - unfold bind at 1.
    destruct (Trainer.run_epoch fw data val best epoch s) as [s1 [b1|e]] eqn:E;
      [|discriminate].
    destruct (run_epoch_inv _ _ _ _ _ _ _ E) as (C1 & evs1 & T1 & vm & nb & D & V & Hm).
    intros H. destruct (IH _ _ H) as (C2 & evs2 & lines & T2 & Hl & Hd & Hv & Hm2).
    split; [congruence|].
    exists (evs1 ++ evs2)%list, (mkLogLine epoch vm nb :: lines).
    rewrite T2, T1, <- app_assoc. split; [reflexivity|].
    split; [cbn; congruence|]. rewrite C1 in Hd, Hm2.
    split; [exists b1; split; [exact D | exact Hd]|].
    split.
    + intros Hval. constructor; [|exact (Hv Hval)]. cbn. split; [exact (V Hval)|].
      rewrite (V Hval) in D. unfold new_best_of in D.
      change (is_empty_namespace ∅) with true in D. congruence.
    + rewrite milestones_app, Hm, Hm2. reflexivity.
Qed.

End EpochLoop.

(** ** [range] *)

Lemma range_nil lo hi : hi <= lo -> range lo hi = [].
Proof.
  intros H. unfold range. replace (Z.to_nat (hi - lo)) with 0%nat by lia. reflexivity.
Qed.

Lemma length_range lo hi : length (range lo hi) = Z.to_nat (hi - lo).
Proof. unfold range. rewrite length_map, length_seq. reflexivity. Qed.

Lemma In_range lo hi x : In x (range lo hi) <-> lo <= x < hi.
Proof.
  unfold range. rewrite in_map_iff. split.
  - intros (i & <- & Hi). apply in_seq in Hi. lia.
  - intros H. exists (Z.to_nat (x - lo)). split; [lia|]. apply in_seq. lia.
Qed.

Lemma range_lookup lo hi (i : nat) :
  (i < Z.to_nat (hi - lo))%nat -> nth_error (range lo hi) i = Some (lo + Z.of_nat i).
Proof.
  intros H. unfold range. rewrite nth_error_map.
  rewrite (nth_error_nth' _ 0%nat) by (rewrite length_seq; exact H).
  rewrite seq_nth by exact H. reflexivity.
Qed.

(** ** A whole training run *)

Section TrainerRun.
Variable fw : Framework.

Lemma trainer_run_inv data val s s' :
  Trainer.run fw data val s = (s', Return tt) ->
  exists s1 start evs lines,
    Trainer._setup fw (Trainer._initialize_scheduler fw) (samples data) s
    = (s1, Return tt) /\
    _start_epoch (self s1) = VInt start /\
    config (self s') = config (self s) /\
    trace (world s') = (trace (world s) ++ evs)%list /\
    map log_epoch lines = range (start + 1) (epochs (config (self s)) + 1) /\
    decided (config (self s)) neg_infinity lines /\
    (val = None ->
       Forall (fun line => log_val_metrics line = ∅ /\ log_new_best line = true) lines) /\
    milestones evs = concat (map (epoch_milestones (config (self s))) lines).
Proof.
  unfold Trainer.run. unfold bind at 1.
  destruct (Trainer._setup fw (Trainer._initialize_scheduler fw) (samples data) s)
    as [s1 [[]|e]] eqn:E0; [|discriminate].
  destruct (setup_quiet fw _ _ _ _ _ E0) as (C0 & evs0 & T0 & F0).
  apply milestones_quiet in F0.
  unfold dispatch_event at 1. rewrite bind_emit, bind_bind, bind_gets.
  cbn [self world files trace].
  destruct (_start_epoch (self s1)) as [t|t|d|l|start|x|str|] eqn:Hst;
    cbn [Trainer.as_int]; try (rewrite bind_raise; discriminate).
  rewrite bind_ret, bind_gets. cbn [self world files trace]. unfold bind at 1.
  match goal with
  | |- context [for_fold ?l ?b ?body ?st] =>
      destruct (for_fold l b body st) as [s2 [b2|e]] eqn:EL; [|discriminate]
  end.
  destruct (epoch_loop_returns fw _ _ _ _ _ _ _ EL)
    as (C2 & evs2 & lines & T2 & Hl & Hd & Hv & Hm).
  cbn [self world files trace] in C2, T2, Hl, Hd, Hm.
  unfold dispatch_event, emit. intros [= <-]. cbn [self world files trace].
  exists s1, start, (evs0 ++ [Dispatch "before_train_start"] ++ evs2
                     ++ [Dispatch "after_train_end"])%list, lines.
  rewrite C0 in *.
  split; [reflexivity|]. split; [exact Hst|]. split; [congruence|].
  split; [rewrite T2, T0, <- !app_assoc; reflexivity|].
  split; [exact Hl|]. split; [exact Hd|]. split; [exact Hv|].
  rewrite !milestones_app, F0, Hm. cbn. rewrite app_nil_r. reflexivity.
Qed.

End TrainerRun.

(** ** What a run leaves behind *)

(** The lines appended to [logs.txt] and the checkpoint files written, in
    order. *)
Definition lines_of (ms : list milestone) : list log_line :=
  omap (fun m => match m with Logged line => Some line | Saved _ => None end) ms.

Definition saves_of (ms : list milestone) : list string :=
  omap (fun m => match m with Saved path => Some path | Logged _ => None end) ms.

Lemma lines_of_app ms1 ms2 : lines_of (ms1 ++ ms2) = (lines_of ms1 ++ lines_of ms2)%list.
Proof. apply omap_app. Qed.

Lemma saves_of_app ms1 ms2 : saves_of (ms1 ++ ms2) = (saves_of ms1 ++ saves_of ms2)%list.
Proof. apply omap_app. Qed.

Lemma lines_of_epochs cfg lines :
  lines_of (concat (map (epoch_milestones cfg) lines)) = lines.
Proof.
  induction lines as [|line lines IH]; [reflexivity|].
  cbn [map concat]. rewrite lines_of_app, IH. unfold epoch_milestones.
  destruct (log_new_best line); reflexivity.
Qed.

Lemma saves_of_epochs cfg lines :
  saves_of (concat (map (epoch_milestones cfg) lines))
  = map (fun line => checkpoint_file cfg (log_epoch line))
        (List.filter log_new_best lines).
Proof.
  induction lines as [|line lines IH]; [reflexivity|].
  cbn [map concat List.filter]. rewrite saves_of_app, IH. unfold epoch_milestones.
  destruct (log_new_best line); reflexivity.
Qed.

Lemma float_gt_irrefl x : float_gt x x = false.
Proof.
  unfold float_gt. rewrite ltb_spec. unfold SpecFloat.SFltb.
  destruct (SpecFloat.SFcompare (Prim2SF x) (Prim2SF x)) as [[| |]|] eqn:E;
    try reflexivity.
  exfalso. revert E. generalize (Prim2SF x). intros [sg| sg| |sg m e]; cbn.
  - destruct sg; discriminate.
  - destruct sg; discriminate.
  - discriminate.
  - destruct sg; rewrite Z.compare_refl, Pos.compare_cont_refl; discriminate.
Qed.

Section TrainerResults.
Variable fw : Framework.

(** X1.  A run of [Trainer.run] that returns went through the epochs
    [start + 1], ..., [epochs], one after the other, where [start] is the
    start epoch [_setup] left in the executor: it appended one line per such
    epoch to [logs.txt], in that order, and nothing else.  When the start
    epoch is not below the configured number of epochs, no epoch ran: no line
    was written and no checkpoint saved. *)
Theorem trainer_run_epochs (data : LoadedContent) (val : option LoadedContent)
    (s s' : State) :
  Trainer.run fw data val s = (s', Return tt) ->
  exists s1 start evs,
    Trainer._setup fw (Trainer._initialize_scheduler fw) (samples data) s
    = (s1, Return tt) /\
    _start_epoch (self s1) = VInt start /\
    trace (world s') = (trace (world s) ++ evs)%list /\
    map log_epoch (lines_of (milestones evs))
    = range (start + 1) (epochs (config (self s)) + 1) /\
    length (lines_of (milestones evs)) = Z.to_nat (epochs (config (self s)) - start) /\
    (forall i line, nth_error (lines_of (milestones evs)) i = Some line ->
                    log_epoch line = start + 1 + Z.of_nat i) /\
    (epochs (config (self s)) <= start -> milestones evs = []).
Proof.
  intros H.
  destruct (trainer_run_inv fw _ _ _ _ H)
    as (s1 & start & evs & lines & Hs & Hst & _ & T & Hl & _ & _ & Hm).
  exists s1, start, evs. rewrite Hm, lines_of_epochs.
  split; [exact Hs|]. split; [exact Hst|]. split; [exact T|]. split; [exact Hl|].
  assert (Hlen : length lines = Z.to_nat (epochs (config (self s)) - start)).
  { rewrite <- (length_map log_epoch), Hl, length_range. f_equal. lia. }
  split; [exact Hlen|]. split.
  - intros i line Hi.
    assert (Hlt : (i < length lines)%nat)
      by (apply nth_error_Some; rewrite Hi; discriminate).
    pose proof (nth_error_map log_epoch i lines) as Hmap.
    rewrite Hi, Hl, range_lookup in Hmap by lia.
    cbn in Hmap. injection Hmap as Hmap. lia.
  - intros Hle. rewrite range_nil in Hl by lia.
    destruct lines; [reflexivity | discriminate Hl].
Qed.

End TrainerResults.

Lemma trainer_run_epochs_witness :
  map log_epoch
    (lines_of (milestones
       (trace (world (fst (Trainer.run example_framework example_loader None
                             fresh_state))))))
  = [1; 2; 3].
Proof.
  destruct (trainer_run_epochs example_framework example_loader None fresh_state
              (fst (Trainer.run example_framework example_loader None fresh_state)))
    as (s1 & start & evs & Hs & Hst & T & Hl & _).
  - vm_compute. reflexivity.
  - rewrite T. cbn [fresh_state world example_world trace app].
    rewrite Hl.
    assert (E : s1 = fst (Trainer._setup example_framework
                            (Trainer._initialize_scheduler example_framework)
                            (samples example_loader) fresh_state))
      by (rewrite Hs; reflexivity).
    rewrite E in Hst. vm_compute in Hst. injection Hst as <-. reflexivity.
Defined.

Section TrainerBest.
Variable fw : Framework.

(** X2.  In a run of [Trainer.run] that returns, every epoch is decided
    against the best metric handed on by the epochs before it (starting from
    minus infinity), a checkpoint is written exactly in the epochs decided a
    new best, before the epoch's line, and nothing else is written. *)
Theorem trainer_run_saves_new_best (data : LoadedContent) (val : option LoadedContent)
    (s s' : State) :
  Trainer.run fw data val s = (s', Return tt) ->
  exists evs lines,
    trace (world s') = (trace (world s) ++ evs)%list /\
    lines_of (milestones evs) = lines /\
    decided (config (self s)) neg_infinity lines /\
    saves_of (milestones evs)
    = map (fun line => checkpoint_file (config (self s)) (log_epoch line))
          (List.filter log_new_best lines) /\
    milestones evs = concat (map (epoch_milestones (config (self s))) lines).
Proof.
  intros H.
  destruct (trainer_run_inv fw _ _ _ _ H)
    as (s1 & start & evs & lines & _ & _ & _ & T & _ & Hd & _ & Hm).
  exists evs, lines. rewrite Hm, lines_of_epochs, saves_of_epochs.
  split; [exact T|]. split; [reflexivity|]. split; [exact Hd|].
  split; reflexivity.
Qed.

(** X3.  Without a validation loader every epoch of a returning run is a new
    best: each epoch from [start + 1] to [epochs] writes its checkpoint and
    then its line, with no validation metrics. *)
Theorem trainer_run_without_validation (data : LoadedContent) (s s' : State) :
  Trainer.run fw data None s = (s', Return tt) ->
  exists s1 start evs,
    Trainer._setup fw (Trainer._initialize_scheduler fw) (samples data) s
    = (s1, Return tt) /\
    _start_epoch (self s1) = VInt start /\
    trace (world s') = (trace (world s) ++ evs)%list /\
    milestones evs
    = concat (map (fun epoch => [Saved (checkpoint_file (config (self s)) epoch);
                                 Logged (mkLogLine epoch ∅ true)])
                  (range (start + 1) (epochs (config (self s)) + 1))).
Proof.
  intros H.
  destruct (trainer_run_inv fw _ _ _ _ H)
    as (s1 & start & evs & lines & Hs & Hst & _ & T & Hl & _ & Hv & Hm).
  exists s1, start, evs.
  split; [exact Hs|]. split; [exact Hst|]. split; [exact T|].
  rewrite Hm, <- Hl. specialize (Hv eq_refl). clear -Hv.
  induction Hv as [|[epoch vm nb] lines [Hvm Hnb] _ IH]; [reflexivity|].
  cbn in Hvm, Hnb. subst. cbn [map concat]. rewrite IH. reflexivity.
Qed.

End TrainerBest.

Lemma trainer_run_saves_new_best_witness :
  saves_of (milestones
    (trace (world (fst (Trainer.run scoring_framework example_loader (Some example_loader)
                          fresh_state)))))
  = ["out/checkpoint.1.pt"].
Proof.
  destruct (trainer_run_saves_new_best scoring_framework example_loader
              (Some example_loader) fresh_state
              (fst (Trainer.run scoring_framework example_loader (Some example_loader)
                      fresh_state)))
    as (evs & lines & T & Hl & Hd & Hs & Hm).
  - vm_compute. reflexivity.
  - cbn [fresh_state world example_world trace app] in T. subst evs.
    rewrite Hs, <- Hl. vm_compute. reflexivity.
Defined.

Lemma trainer_run_without_validation_witness :
  milestones
    (trace (world (fst (Trainer.run example_framework example_loader None fresh_state))))
  = concat (map (fun epoch => [Saved (checkpoint_file (config (self fresh_state)) epoch);
                               Logged (mkLogLine epoch ∅ true)])
                [1; 2; 3]).
Proof.
  destruct (trainer_run_without_validation example_framework example_loader fresh_state
              (fst (Trainer.run example_framework example_loader None fresh_state)))
    as (s1 & start & evs & Hs & Hst & T & Hm).
  - vm_compute. reflexivity.
  - vm_compute. reflexivity.
Defined.

Section BestCheck.
Variable fw : Framework.

(** X4.  A call of [_check_best] that returns has decided the epoch as
    follows.  With empty validation metrics the epoch is a new best and the
    best metric is handed on unchanged.  Otherwise the first value of the
    target metric is compared with the best metric by a strict [>]: the
    epoch is a new best exactly when it is greater, and the best metric
    handed on is the greater of the two.  A checkpoint is written, to the
    epoch's checkpoint file, exactly when the epoch is a new best. *)
Theorem check_best_decides (epoch : Z) (val_metrics : Namespace) (best best' : float)
    (new_best : bool) (s s' : State) :
  Trainer._check_best fw epoch val_metrics best s = (s', Return (best', new_best)) ->
  (is_empty_namespace val_metrics = true -> new_best = true /\ best' = best) /\
  (is_empty_namespace val_metrics = false ->
     exists target rest,
       val_metrics !! target_metric (config (self s)) = Some (target :: rest) /\
       new_best = PrimFloat.ltb best target /\
       best' = if new_best then target else best) /\
  exists evs,
    trace (world s') = (trace (world s) ++ evs)%list /\
    saves_of (milestones evs)
    = (if new_best then [checkpoint_file (config (self s)) epoch] else []) /\
    lines_of (milestones evs) = [].
Proof.
  intros H. destruct (check_best_inv fw _ _ _ _ _ _ H) as (_ & evs & T & D & Hm).
  unfold new_best_of in D. split; [|split].
  - intros He. rewrite He in D. injection D as <- <-. split; reflexivity.
  - intros He. rewrite He in D.
    destruct (val_metrics !! target_metric (config (self s))) as [[|target rest]|];
      try discriminate D.
    injection D as <- <-. exists target, rest. unfold float_gt.
    split; [reflexivity|]. split; reflexivity.
  - exists evs. split; [exact T|]. rewrite Hm. destruct new_best; split; reflexivity.
Qed.

(** X5.  A tie is no improvement: when the target metric equals the best
    metric so far, [_check_best] returns the best metric unchanged, decides
    that the epoch is no new best, and leaves the executor and the outside
    world as they were (no checkpoint is written). *)
Theorem check_best_tie (epoch : Z) (val_metrics : Namespace) (best : float)
    (rest : list float) (s : State) :
  val_metrics !! target_metric (config (self s)) = Some (best :: rest) ->
  Trainer._check_best fw epoch val_metrics best s = (s, Return (best, false)).
Proof.
  intros Hv. unfold Trainer._check_best. rewrite bind_gets.
  assert (He : is_empty_namespace val_metrics = false).
  { unfold is_empty_namespace. apply bool_decide_eq_false. intros Hd.
    apply dom_empty_inv_L in Hd. subst. rewrite lookup_empty in Hv. discriminate Hv. }
  rewrite He, Hv, bind_ret, float_gt_irrefl. reflexivity.
Qed.

End BestCheck.

Lemma check_best_decides_witness :
  exists target rest,
    accuracy_of 0.75%float !! target_metric (config (self example_state))
    = Some (target :: rest) /\
    true = PrimFloat.ltb 0.5%float target /\
    0.75%float = if true then target else 0.5%float.
Proof.
  destruct (check_best_decides example_framework 2 (accuracy_of 0.75%float) 0.5%float
              0.75%float true example_state
              (fst (Trainer._check_best example_framework 2 (accuracy_of 0.75%float)
                      0.5%float example_state)))
    as (_ & Hne & _).
  - vm_compute. reflexivity.
  - apply Hne. vm_compute. reflexivity.
Defined.

Lemma check_best_tie_witness :
  Trainer._check_best example_framework 2 (accuracy_of 0.5%float) 0.5%float example_state
  = (example_state, Return (0.5%float, false)).
Proof.
  apply (check_best_tie example_framework 2 (accuracy_of 0.5%float) 0.5%float []).
  vm_compute. reflexivity.
Defined.

Section TrainerAnyOutcome.
Variable fw : Framework.

Lemma lines_of_no_Logged ms :
  (forall line, ~ In (Logged line) ms) -> lines_of ms = [].
Proof.
  induction ms as [|[path|line] ms IH]; intros H; [reflexivity| |].
  - apply IH. intros line Hin. apply (H line). right. exact Hin.
  - exfalso. apply (H line). left. reflexivity.
Qed.

Lemma epoch_loop_logs data val l best s s' o :
  for_fold l best (Trainer.run_epoch fw data val) s = (s', o) ->
  exists evs n,
    trace (world s') = (trace (world s) ++ evs)%list /\
    map log_epoch (lines_of (milestones evs)) = take n l.
Proof.
  revert best s. induction l as [|epoch l IH]; intros best s; cbn [for_fold].
  - intros [= <- _]. exists [], 0%nat. rewrite app_nil_r. split; reflexivity.
  - unfold bind at 1.
    destruct (Trainer.run_epoch fw data val best epoch s) as [s1 [b1|e]] eqn:E;
      destruct (run_epoch_inv _ _ _ _ _ _ _ _ E) as (C1 & evs1 & T1 & H1).
    + destruct H1 as (vm & nb & _ & _ & Hm). intros H.
      destruct (IH _ _ H) as (evs2 & n & T2 & Hl).
      exists (evs1 ++ evs2)%list, (S n). rewrite T2, T1, <- app_assoc.
      split; [reflexivity|].
      rewrite milestones_app, lines_of_app, map_app, Hl, Hm.
      unfold epoch_milestones. rewrite lines_of_app.
      replace (lines_of (if log_new_best (mkLogLine epoch vm nb)
                         then [Saved (checkpoint_file (config (self s))
                                        (log_epoch (mkLogLine epoch vm nb)))]
                         else [])) with (@nil log_line) by (destruct nb; reflexivity).
      reflexivity.
    + intros [= <- _]. exists evs1, 0%nat. split; [exact T1|].
      rewrite (lines_of_no_Logged _ H1). reflexivity.
Qed.

(** X6.  Whatever its outcome, [Trainer.run] never logs an epoch out of
    turn: either it has appended no line to [logs.txt], or [_setup] returned
    and the epochs of the lines it has appended are the first [n] of
    [start + 1], ..., [epochs], in that order. *)
Theorem trainer_run_logs_in_order (data : LoadedContent) (val : option LoadedContent)
    (s : State) :
  exists evs,
    trace (world (fst (Trainer.run fw data val s))) = (trace (world s) ++ evs)%list /\
    (lines_of (milestones evs) = [] \/
     exists s1 start n,
       Trainer._setup fw (Trainer._initialize_scheduler fw) (samples data) s
       = (s1, Return tt) /\
       _start_epoch (self s1) = VInt start /\
       map log_epoch (lines_of (milestones evs))
       = take n (range (start + 1) (epochs (config (self s)) + 1))).
Proof.
  destruct (Trainer.run fw data val s) as [s' o] eqn:H. cbn [fst]. revert H.
  unfold Trainer.run. unfold bind at 1.
  destruct (Trainer._setup fw (Trainer._initialize_scheduler fw) (samples data) s)
    as [s1 [[]|e]] eqn:E0;
    destruct (setup_quiet fw _ _ _ _ _ E0) as (C0 & evs0 & T0 & F0);
    apply milestones_quiet in F0.
  2:{ intros [= <- _]. exists evs0. split; [exact T0|]. left. rewrite F0. reflexivity. }
  unfold dispatch_event at 1. rewrite bind_emit, bind_bind, bind_gets.
  cbn [self world files trace].
  destruct (_start_epoch (self s1)) as [t|t|d|l|start|x|str|] eqn:Hst;
    cbn [Trainer.as_int];
    try (rewrite bind_raise; intros [= <- _]; cbn [self world files trace];
         exists (evs0 ++ [Dispatch "before_train_start"])%list;
         rewrite T0, <- app_assoc; split; [reflexivity|]; left;
         rewrite milestones_app, F0; reflexivity).
  rewrite bind_ret, bind_gets. cbn [self world files trace]. unfold bind at 1.
  match goal with
  | |- context [for_fold ?l ?b ?body ?st] =>
      destruct (for_fold l b body st) as [s2 [b2|e]] eqn:EL
  end;
  destruct (epoch_loop_logs _ _ _ _ _ _ _ EL) as (evs2 & n & T2 & Hl);
  cbn [self world files trace] in T2, Hl; rewrite C0 in Hl.
  - unfold dispatch_event, emit. intros [= <- _]. cbn [self world files trace].
    exists (evs0 ++ [Dispatch "before_train_start"] ++ evs2
            ++ [Dispatch "after_train_end"])%list.
    split; [rewrite T2, T0, <- !app_assoc; reflexivity|].
    right. exists s1, start, n. split; [reflexivity|]. split; [exact Hst|].
    rewrite !milestones_app, F0, !lines_of_app. cbn. rewrite app_nil_r. exact Hl.
  - intros [= <- _].
    exists (evs0 ++ [Dispatch "before_train_start"] ++ evs2)%list.
    split; [rewrite T2, T0, <- !app_assoc; reflexivity|].
    right. exists s1, start, n. split; [reflexivity|]. split; [exact Hst|].
    rewrite !milestones_app, F0, !lines_of_app. cbn. exact Hl.
Qed.

End TrainerAnyOutcome.

(** ** Setting up a trainer *)

Section TrainerSetup.
Variable fw : Framework.

(** [self.network.train()] *)
Definition in_training_mode (e : Executor) : Executor :=
  let n := network e in
  set_network (mkNetwork (net_class_of n) (net_state n) (net_device n) true) e.

(** The executor as [_setup] has it when it calls [_load_checkpoint]. *)
Definition equipped (init : Config -> Optimizer -> Z -> Scheduler) (n : Z) (s : State)
    : State :=
  let cfg := config (self s) in
  let opt := create_optimizer fw cfg (network (self s)) in
  {| self := set_scheduler (Some (init cfg opt n)) (set_optimizer (Some opt) (self s));
     world := world s |}.

Lemma setup_unfold init n s :
  Trainer._setup fw init n s
  = match _load_checkpoint true (equipped init n s) with
    | (s1, Return _) =>
        ({| self := in_training_mode (self s1);
            world := {| files := files (world s1);
                        trace := trace (world s1)
                                 ++ [LogInfo (Text "Checkpoint loaded successfully")] |} |},
         Return tt)
    | (s1, Raise CheckpointNotFound) =>
        ({| self := in_training_mode (self s1); world := world s1 |}, Return tt)
    | (s1, Raise e) => (s1, Raise e)
    end.
Proof.
  unfold Trainer._setup, equipped. rewrite bind_gets, bind_gets. cbv zeta.
  rewrite bind_modify, bind_modify. cbn [self world].
  unfold bind at 1. unfold except_CheckpointNotFound. unfold bind at 1.
  match goal with
  | |- context [_load_checkpoint true ?st] =>
      destruct (_load_checkpoint true st) as [s1 [[]|e]]
  end.
  - reflexivity.
  - destruct e; reflexivity.
Qed.

(** X7.  Without a checkpoint to resume from (no path configured, or no
    file at the path), [Trainer._setup] returns all the same: the
    [CheckpointNotFound] of the load is swallowed.  The executor then holds a
    new optimizer and a new scheduler, its network is in training mode and
    its start epoch is what it was; no file was written and no success
    message was logged. *)
Theorem setup_without_checkpoint (init : Config -> Optimizer -> Z -> Scheduler)
    (n : Z) (s : State) :
  match checkpoint_path (config (self s)) with
  | None => True
  | Some p => files (world s) !! p = None
  end ->
  exists s',
    Trainer._setup fw init n s = (s', Return tt) /\
    _start_epoch (self s') = _start_epoch (self s) /\
    optimizer (self s')
    = Some (create_optimizer fw (config (self s)) (network (self s))) /\
    scheduler (self s')
    = Some (init (config (self s))
                 (create_optimizer fw (config (self s)) (network (self s))) n) /\
    net_training (network (self s')) = true /\
    net_state (network (self s')) = net_state (network (self s)) /\
    files (world s') = files (world s) /\
    exists evs,
      trace (world s') = (trace (world s) ++ evs)%list /\
      ~ In (LogInfo (Text "Checkpoint loaded successfully")) evs.
Proof.
  intros H. rewrite setup_unfold.
  assert (E : _load_checkpoint true (equipped init n s)
              = ({| self := self (equipped init n s);
                    world := {| files := files (world s);
                                trace := trace (world s)
                                         ++ [Dispatch "before_checkpoint_load"] |} |},
                 Raise CheckpointNotFound)).
  { run_load. destruct (checkpoint_path (config (self s))) as [p|]; simpl.
    - rewrite H. reflexivity.
    - reflexivity. }
  rewrite E. eexists. split; [reflexivity|]. cbn [self world files trace].
  split; [reflexivity|]. split; [reflexivity|]. split; [reflexivity|].
  split; [reflexivity|]. split; [reflexivity|]. split; [reflexivity|].
  exists [Dispatch "before_checkpoint_load"]. split; [reflexivity|].
  intros [H'|[]]. discriminate H'.
Qed.

Lemma setup_after_save (init : Config -> Optimizer -> Z -> Scheduler) (n : Z)
    (epoch : Z) (s : State) (o : Optimizer) (sc : Scheduler) (t : State) :
  let path := checkpoint_file (config (self s)) epoch in
  optimizer (self s) = Some o ->
  scheduler (self s) = Some sc ->
  before_checkpoint_save fw (checkpoint_info epoch (self s) o sc)
  = checkpoint_info epoch (self s) o sc ->
  files (world t) !! path = files (world (fst (Trainer.save fw epoch s))) !! path ->
  checkpoint_path (config (self t)) = Some path ->
  is_finetuning (config (self t)) = false ->
  exists t',
    Trainer._setup fw init n t = (t', Return tt) /\
    _start_epoch (self t') = VInt epoch /\
    net_state (network (self t')) = net_state (network (self s)) /\
    option_map opt_state (optimizer (self t')) = Some (opt_state o) /\
    option_map sched_state (scheduler (self t')) = Some (sched_state sc) /\
    In (LogInfo (Text "Checkpoint loaded successfully")) (trace (world t')).
Proof.
  intros path Ho Hs Hobs Hfile Hpath Hft.
  rewrite (save_spec fw epoch s o sc Ho Hs) in Hfile. cbv zeta in Hfile.
  cbn [fst world files] in Hfile. fold path in Hfile.
  rewrite lookup_insert_eq, Hobs in Hfile.
  set (info := checkpoint_info epoch (self s) o sc) in *.
  assert (Hmodel : info !! "model" = Some (net_state (network (self s))))
    by reflexivity.
  destruct (load_checkpoint_returns true (equipped init n t) path info _
              Hpath Hfile Hmodel) as (t1 & Hload).
  destruct (load_checkpoint_inv _ _ _ Hload)
    as (p & info' & Hp & Hf & Hm & Hopt & Hsch & Hep).
  change (checkpoint_path (config (self t)) = Some p) in Hp.
  change (files (world t) !! p = Some info') in Hf.
  rewrite Hpath in Hp. injection Hp as <-.
  rewrite Hfile in Hf. injection Hf as <-.
  assert (Hres : resuming (config (self (equipped init n t))) true = true)
    by (unfold resuming;
        change (config (self (equipped init n t))) with (config (self t));
        rewrite Hft; reflexivity).
  rewrite Hres in Hopt, Hsch, Hep.
  rewrite setup_unfold, Hload. eexists. split; [reflexivity|].
  cbn [self world files trace in_training_mode set_network _start_epoch network
       net_state optimizer scheduler].
  split; [rewrite Hep; reflexivity|].
  split; [rewrite Hmodel in Hm; congruence|].
  split; [rewrite Hopt; reflexivity|].
  split; [rewrite Hsch; reflexivity|].
  apply in_or_app. right. left. reflexivity.
Qed.

(** X8.  Saving and resuming compose.  Let [Trainer.save] write the
    checkpoint of an epoch, with observers that leave the payload as it is.
    A trainer that is later set up on that file, outside fine-tuning mode,
    resumes from it: [_setup] returns, the start epoch is the saved epoch,
    and the network, the optimizer and the scheduler hold the saved states.
    A run of that trainer that returns then goes through the epochs after
    the saved one, up to the configured number of epochs, and no others. *)
Theorem trainer_resumes_saved_epoch (data : LoadedContent) (val : option LoadedContent)
    (epoch : Z) (s : State) (o : Optimizer) (sc : Scheduler) (t : State) :
  let path := checkpoint_file (config (self s)) epoch in
  optimizer (self s) = Some o ->
  scheduler (self s) = Some sc ->
  before_checkpoint_save fw (checkpoint_info epoch (self s) o sc)
  = checkpoint_info epoch (self s) o sc ->
  files (world t) !! path = files (world (fst (Trainer.save fw epoch s))) !! path ->
  checkpoint_path (config (self t)) = Some path ->
  is_finetuning (config (self t)) = false ->
  (exists t1,
     Trainer._setup fw (Trainer._initialize_scheduler fw) (samples data) t
     = (t1, Return tt) /\
     _start_epoch (self t1) = VInt epoch /\
     net_state (network (self t1)) = net_state (network (self s)) /\
     option_map opt_state (optimizer (self t1)) = Some (opt_state o) /\
     option_map sched_state (scheduler (self t1)) = Some (sched_state sc)) /\
  (forall t', Trainer.run fw data val t = (t', Return tt) ->
     exists evs,
       trace (world t') = (trace (world t) ++ evs)%list /\
       map log_epoch (lines_of (milestones evs))
       = range (epoch + 1) (epochs (config (self t)) + 1)).
Proof.
  intros path Ho Hs Hobs Hfile Hpath Hft.
  destruct (setup_after_save (Trainer._initialize_scheduler fw) (samples data) epoch
              s o sc t Ho Hs Hobs Hfile Hpath Hft)
    as (t1 & Hsetup & Hstart & Hnet & Hopt & Hsch & _).
  split.
  - exists t1. split; [exact Hsetup|]. split; [exact Hstart|]. split; [exact Hnet|].
    split; [exact Hopt | exact Hsch].
  - intros t' Hrun.
    destruct (trainer_run_inv fw _ _ _ _ Hrun)
      as (t1' & start & evs & lines & Hsetup' & Hstart' & _ & T & Hl & _ & _ & Hm).
    rewrite Hsetup in Hsetup'. injection Hsetup' as <-.
    rewrite Hstart in Hstart'. injection Hstart' as <-.
    exists evs. split; [exact T|]. rewrite Hm, lines_of_epochs. exact Hl.
Qed.

End TrainerSetup.

Lemma setup_without_checkpoint_witness :
  exists s',
    Trainer._setup example_framework (Trainer._initialize_scheduler example_framework)
      1 fresh_state = (s', Return tt) /\
    _start_epoch (self s') = VInt 0.
Proof.
  destruct (setup_without_checkpoint example_framework
              (Trainer._initialize_scheduler example_framework) 1 fresh_state I)
    as (s' & Hrun & Hstart & _).
  exists s'. split; [exact Hrun | exact Hstart].
Defined.

Lemma trainer_resumes_saved_epoch_witness :
  exists evs,
    trace (world (fst (Trainer.run example_framework example_loader None
                         (fst (Trainer.save example_framework 2 resumable_state)))))
    = (trace (world (fst (Trainer.save example_framework 2 resumable_state))) ++ evs)%list /\
    map log_epoch (lines_of (milestones evs)) = [3].
Proof.
  destruct (trainer_resumes_saved_epoch example_framework example_loader None 2
              resumable_state
              {| opt_state := VInt 2; param_groups := [0.001%float] |}
              {| sched_state := VInt 3 |}
              (fst (Trainer.save example_framework 2 resumable_state))
              eq_refl eq_refl eq_refl eq_refl eq_refl eq_refl)
    as [_ Hrun].
  apply (Hrun (fst (Trainer.run example_framework example_loader None
                      (fst (Trainer.save example_framework 2 resumable_state))))).
  vm_compute. reflexivity.
Defined.

(** ** The learning-rate search *)

(** The update of [best_loss] in [track_best_loss] and the test of line
    497. *)
Definition improve (best smoothed : float) : float :=
  if PrimFloat.ltb smoothed best then smoothed else best.

Definition diverges (smoothed best : float) : bool :=
  float_gt smoothed (LearningRareFinder.DIVERGENCE_THRESHOLD * best)%float.

(** The first iteration, counted from the one after the best loss was
    [best], whose smoothed loss exceeds five times the best smoothed loss
    recorded up to and including it. *)
Fixpoint divergence_from (best : float) (smoothed : list float) : option nat :=
  match smoothed with
  | [] => None
  | sm :: rest =>
      if diverges sm (improve best sm) then Some 0%nat
      else option_map S (divergence_from (improve best sm) rest)
  end.

(** The same from the start of the search, where the first loss is the best
    loss. *)
Definition first_divergence (smoothed : list float) : option nat :=
  match smoothed with
  | [] => None
  | first :: rest =>
      if diverges first first then Some 0%nat
      else option_map S (divergence_from first rest)
  end.

Ltac fields :=
  cbn [self world config history_lr history_loss best_loss optimizer scheduler network
       _iterator _start_epoch probe set_history set_network set_optimizer set_scheduler
       set_best_loss set_iterator set_start_epoch set_probe].

Section LearningRateSearch.
Variable fw : Framework.

Lemma smoothing_is_on : float_gt LearningRareFinder.SMOOTHING_FACTOR 0 = true.
Proof. vm_compute. reflexivity. Qed.

(** [track_best_loss] only rebinds [best_loss]. *)
Lemma track_best_loss_inv i loss s s' o :
  LearningRareFinder.track_best_loss i loss s = (s', o) ->
  match o with
  | Return sm =>
      (i = 0 /\ sm = loss /\
       s' = {| self := set_best_loss (Some loss) (self s); world := world s |}) \/
      (i <> 0 /\
       exists prev b0,
         last (history_loss (self s)) = Some prev /\
         sm = LearningRareFinder.smooth loss prev /\
         best_loss (self s) = Some b0 /\
         s' = if PrimFloat.ltb sm b0
              then {| self := set_best_loss (Some sm) (self s); world := world s |}
              else s)
  | Raise _ => s' = s
  end.
Proof.
  unfold LearningRareFinder.track_best_loss.
  destruct (i =? 0)%Z eqn:Hi.
  - apply Z.eqb_eq in Hi. rewrite bind_modify. intros [= <- <-]. left. auto.
  - apply Z.eqb_neq in Hi. rewrite smoothing_is_on. cbv iota.
    rewrite bind_bind, bind_gets.
    destruct (last (history_loss (self s))) as [prev|] eqn:Hlast.
    + rewrite bind_ret, bind_gets.
      destruct (best_loss (self s)) as [b0|] eqn:Hb.
      * destruct (PrimFloat.ltb (LearningRareFinder.smooth loss prev) b0) eqn:Hlt.
        -- rewrite bind_modify. intros [= <- <-]. right. split; [exact Hi|].
           exists prev, b0. rewrite Hlt. auto.
        -- rewrite bind_ret. intros [= <- <-]. right. split; [exact Hi|].
           exists prev, b0. rewrite Hlt. auto.
      * rewrite bind_raise. intros [= <- <-]. reflexivity.
    + rewrite bind_raise. intros [= <- <-]. reflexivity.
Qed.

Lemma next_batch_inv data s s' o :
  LearningRareFinder.next_batch data s = (s', o) ->
  exists it, s' = {| self := set_iterator it (self s); world := world s |}.
Proof.
  unfold LearningRareFinder.next_batch. rewrite bind_gets.
  destruct (_iterator (self s)) as [|d rest].
  - destruct (dataset data) as [|d rest]; rewrite bind_modify; intros [= <- _];
      eexists; reflexivity.
  - rewrite bind_modify. intros [= <- _]. eexists; reflexivity.
Qed.

(** One iteration of the search. *)
Lemma run_iteration_inv data i s s' o :
  LearningRareFinder.run_iteration fw data i s = (s', o) ->
  match o with
  | Return stop =>
      exists lr sm b,
        history_lr (self s') = (history_lr (self s) ++ [lr])%list /\
        history_loss (self s') = (history_loss (self s) ++ [sm])%list /\
        best_loss (self s') = Some b /\
        stop = diverges sm b /\
        (i = 0 -> b = sm) /\
        (i <> 0 -> exists b0, best_loss (self s) = Some b0 /\ b = improve b0 sm)
  | Raise _ =>
      exists lrs sms,
        history_lr (self s') = (history_lr (self s) ++ lrs)%list /\
        history_loss (self s') = (history_loss (self s) ++ sms)%list /\
        (length sms <= length lrs <= 1)%nat
  end.
Proof.
  unfold LearningRareFinder.run_iteration.
  (* the batch *)
  unfold bind at 1.
  destruct (LearningRareFinder.next_batch data s) as [s1 [d|e]] eqn:E1;
    destruct (next_batch_inv _ _ _ _ E1) as [it ->]; clear E1.
  2:{ intros [= <- <-]. exists [], []. fields. rewrite !app_nil_r. auto. }
  unfold bind at 1.
  match goal with
  | |- context [_to_device d ?st] =>
      destruct (_to_device d st) as [s2 [d2|e]] eqn:E2;
      apply to_device_self in E2; cbn [self] in E2
  end.
  2:{ intros [= <- <-]. exists [], []. rewrite E2. fields. rewrite !app_nil_r. auto. }
  rewrite bind_bind, bind_gets.
  destruct (optimizer (self s2)) as [opt|] eqn:Hopt; cbn [the].
  2:{ rewrite bind_raise. intros [= <- <-]. exists [], []. rewrite E2. fields.
      rewrite !app_nil_r. auto. }
  rewrite bind_ret, bind_gets. cbv zeta. unfold dispatch_event at 1. rewrite bind_emit.
  (* the smoothed loss *)
  unfold bind at 1.
  match goal with
  | |- context [LearningRareFinder.track_best_loss i ?loss ?st] =>
      destruct (LearningRareFinder.track_best_loss i loss st) as [s4 [sm|e]] eqn:E4;
      apply track_best_loss_inv in E4; cbn [self world] in E4
  end.
  2:{ intros [= <- <-]. exists [], []. subst s4. cbn [self]. rewrite E2. fields.
      rewrite !app_nil_r. auto. }
  assert (Hlr4 : history_lr (self s4) = history_lr (self s)).
  { destruct E4 as [(_ & _ & ->)|(_ & prev & b0 & _ & _ & _ & ->)];
      [|destruct (PrimFloat.ltb sm b0)]; cbn [self]; rewrite ?E2; fields; reflexivity. }
  assert (Hloss4 : history_loss (self s4) = history_loss (self s)).
  { destruct E4 as [(_ & _ & ->)|(_ & prev & b0 & _ & _ & _ & ->)];
      [|destruct (PrimFloat.ltb sm b0)]; cbn [self]; rewrite ?E2; fields; reflexivity. }
  assert (Hbest4 : exists b, best_loss (self s4) = Some b /\
                             (i = 0 -> b = sm) /\
                             (i <> 0 -> exists b0, best_loss (self s) = Some b0 /\
                                                    b = improve b0 sm)).
  { destruct E4 as [(Hi & Hsm & ->)|(Hi & prev & b0 & _ & _ & Hb0 & ->)].
    - exists sm. subst sm. fields. split; [reflexivity|]. split; [reflexivity|].
      intros Hne. contradiction.
    - rewrite E2 in Hb0. cbn [best_loss set_iterator] in Hb0.
      exists (improve b0 sm).
      split; [|split; [intros Hz; contradiction
                      |intros _; exists b0; split; [exact Hb0 | reflexivity]]].
      unfold improve.
      destruct (PrimFloat.ltb sm b0); cbn [self]; rewrite ?E2; fields;
        [reflexivity | exact Hb0]. }
  clear E4. destruct Hbest4 as (b & Hb & Hb0 & Hbn).
  (* the learning rate *)
  unfold LearningRareFinder._get_learning_rate at 1. rewrite !bind_bind, bind_gets.
  destruct (optimizer (self s4)) as [opt4|]; cbn [the].
  2:{ rewrite bind_raise. intros [= <- <-]. exists [], []. rewrite Hlr4, Hloss4.
      rewrite !app_nil_r. auto. }
  rewrite bind_ret. destruct (param_groups opt4) as [|lr lrs].
  { rewrite bind_raise. intros [= <- <-]. exists [], []. rewrite Hlr4, Hloss4.
    rewrite !app_nil_r. auto. }
  rewrite bind_ret, bind_modify.
  destruct (backward_and_step fw (network (self s2)) opt d2) as [net' opt'].
  rewrite bind_modify, bind_modify, bind_bind, bind_gets. fields.
  destruct (scheduler (self s4)) as [sc|]; cbn [the].
  2:{ rewrite bind_raise. intros [= <- <-]. exists [lr], []. fields.
      rewrite Hlr4, Hloss4, app_nil_r. cbn [length]. auto. }
  rewrite bind_ret. destruct (scheduler_step fw sc opt') as [sc' opt''].
  rewrite !bind_modify. fields.
  unfold LearningRareFinder._get_learning_rate at 1. rewrite !bind_bind, bind_gets.
  fields. cbn [the]. rewrite bind_ret.
  destruct (param_groups opt'') as [|lr2 lrs2].
  { rewrite bind_raise. intros [= <- <-]. exists [lr], [sm]. fields.
    rewrite Hlr4, Hloss4. cbn [length]. auto. }
  rewrite bind_ret, bind_gets. fields. rewrite Hb. intros [= <- <-]. fields.
  exists lr, sm, b. rewrite Hlr4, Hloss4. unfold diverges. auto 10.
Qed.

Lemma range_cons lo hi : lo < hi -> range lo hi = lo :: range (lo + 1) hi.
Proof.
  intros H. unfold range.
  replace (Z.to_nat (hi - lo)) with (S (Z.to_nat (hi - (lo + 1)))) by lia.
  cbn [seq map]. f_equal; [lia|].
  rewrite <- seq_shift, map_map. apply map_ext. intros i. lia.
Qed.

(** The iterations after the first. *)
Lemma search_tail data l b s s' :
  Forall (fun i => i <> 0) l ->
  best_loss (self s) = Some b ->
  for_break l (LearningRareFinder.run_iteration fw data) s = (s', Return tt) ->
  exists lrs sms,
    history_lr (self s') = (history_lr (self s) ++ lrs)%list /\
    history_loss (self s') = (history_loss (self s) ++ sms)%list /\
    length lrs = length sms /\
    match divergence_from b sms with
    | None => length sms = length l
    | Some j => length sms = S j /\ (j < length l)%nat
    end.
Proof.
  intros Hl. revert b s. induction Hl as [|i l Hi Hl IH]; intros b s Hb; cbn [for_break].
  - intros [= <-]. exists [], []. rewrite !app_nil_r.
    split; [reflexivity|]. split; [reflexivity|]. split; reflexivity.
  - unfold bind at 1.
    destruct (LearningRareFinder.run_iteration fw data i s) as [s1 [stop|e]] eqn:E;
      [|discriminate].
    apply run_iteration_inv in E.
    destruct E as (lr & sm & b1 & Hlr & Hloss & Hb1 & Hstop & _ & Hbn).
    destruct (Hbn Hi) as (b0 & Hb0 & ->). rewrite Hb in Hb0. injection Hb0 as <-.
    destruct stop.
    + intros [= <-]. exists [lr], [sm]. cbn [divergence_from length].
      rewrite <- Hstop. split; [exact Hlr|]. split; [exact Hloss|].
      split; [reflexivity|]. split; [reflexivity | lia].
    + intros H. destruct (IH _ _ Hb1 H) as (lrs & sms & Hlr' & Hloss' & Hlen & Hdiv).
      exists (lr :: lrs), (sm :: sms). cbn [divergence_from length].
      rewrite <- Hstop, Hlr', Hloss', Hlr, Hloss, <- !app_assoc.
      split; [reflexivity|]. split; [reflexivity|]. split; [congruence|].
      destruct (divergence_from (improve b sm) sms) as [j|]; cbn [option_map]; lia.
Qed.

Lemma range_nonzero lo hi : 0 < lo -> Forall (fun i => i <> 0) (range lo hi).
Proof.
  intros H. apply List.Forall_forall. intros i Hin. apply In_range in Hin. lia.
Qed.

Lemma search_inv data budget s s' :
  LearningRareFinder.search fw data budget s = (s', Return tt) ->
  exists lrs sms,
    history_lr (self s') = (history_lr (self s) ++ lrs)%list /\
    history_loss (self s') = (history_loss (self s) ++ sms)%list /\
    length lrs = length sms /\
    match first_divergence sms with
    | None => length sms = Z.to_nat budget
    | Some j => length sms = S j /\ (j < Z.to_nat budget)%nat
    end.
Proof.
  unfold LearningRareFinder.search.
  destruct (Z.le_gt_cases budget 0) as [Hle|Hgt].
  - rewrite range_nil by lia. intros [= <-]. exists [], []. rewrite !app_nil_r.
    cbn. repeat split; lia.
  - rewrite range_cons by lia. cbn [for_break]. unfold bind at 1.
    destruct (LearningRareFinder.run_iteration fw data 0 s) as [s1 [stop|e]] eqn:E;
      [|discriminate].
    apply run_iteration_inv in E.
    destruct E as (lr & sm & b1 & Hlr & Hloss & Hb1 & Hstop & Hz & _).
    rewrite (Hz eq_refl) in *. clear Hz.
    destruct stop.
    + intros [= <-]. exists [lr], [sm]. cbn [first_divergence length].
      rewrite <- Hstop. split; [exact Hlr|]. split; [exact Hloss|].
      split; [reflexivity|]. split; [reflexivity | lia].
    + intros H.
      destruct (search_tail data _ _ _ _ (range_nonzero (0 + 1) budget ltac:(lia)) Hb1 H)
        as (lrs & sms & Hlr' & Hloss' & Hlen & Hdiv).
      rewrite length_range in Hdiv.
      exists (lr :: lrs), (sm :: sms). cbn [first_divergence length].
      rewrite <- Hstop, Hlr', Hloss', Hlr, Hloss, <- !app_assoc.
      split; [reflexivity|]. split; [reflexivity|]. split; [congruence|].
      destruct (divergence_from sm sms) as [j|]; cbn [option_map]; lia.
Qed.

Lemma search_any data l s s' o :
  for_break l (LearningRareFinder.run_iteration fw data) s = (s', o) ->
  exists lrs sms,
    history_lr (self s') = (history_lr (self s) ++ lrs)%list /\
    history_loss (self s') = (history_loss (self s) ++ sms)%list /\
    (length sms <= length lrs <= S (length sms))%nat /\
    (length lrs <= length l)%nat /\
    (is_Return o = true -> length lrs = length sms).
Proof.
  revert s. induction l as [|i l IH]; intros s; cbn [for_break].
  - intros [= <- <-]. exists [], []. rewrite !app_nil_r. cbn [length].
    split; [reflexivity|]. split; [reflexivity|]. split; [lia|]. split; [lia|].
    reflexivity.
  - unfold bind at 1.
    destruct (LearningRareFinder.run_iteration fw data i s) as [s1 [stop|e]] eqn:E;
      apply run_iteration_inv in E.
    + destruct E as (lr & sm & b1 & Hlr & Hloss & _).
      destruct stop.
      * intros [= <- <-]. exists [lr], [sm]. cbn [length].
        split; [exact Hlr|]. split; [exact Hloss|]. split; [lia|]. split; [lia|].
        reflexivity.
      * intros H. destruct (IH _ H) as (lrs & sms & Hlr' & Hloss' & Hlen & Hle & Hret).
        exists (lr :: lrs), (sm :: sms). cbn [length].
        rewrite Hlr', Hloss', Hlr, Hloss, <- !app_assoc.
        split; [reflexivity|]. split; [reflexivity|]. split; [lia|]. split; [lia|].
        intros Ho. rewrite (Hret Ho). reflexivity.
    + destruct E as (lrs & sms & Hlr & Hloss & Hlen). intros [= <- <-].
      exists lrs, sms. cbn [length is_Return].
      split; [exact Hlr|]. split; [exact Hloss|]. split; [lia|]. split; [lia|].
      discriminate.
Qed.

(** X9.  Whatever its outcome, the search loop keeps the two histories in
    step: over at most [budget] iterations it appends to [history["lr"]] and
    to [history["loss"]], one entry each per completed iteration.  When the
    loop returns both have grown by the same number of entries; when an
    iteration raises, the learning rates are at most one entry ahead of the
    losses (the rate is appended before the optimizer and the scheduler step,
    the loss after). *)
Theorem search_history_aligned (data : LoadedContent) (budget : Z) (s : State) :
  exists lrs sms,
    history_lr (self (fst (LearningRareFinder.search fw data budget s)))
    = (history_lr (self s) ++ lrs)%list /\
    history_loss (self (fst (LearningRareFinder.search fw data budget s)))
    = (history_loss (self s) ++ sms)%list /\
    (length sms <= length lrs <= S (length sms))%nat /\
    (length lrs <= Z.to_nat budget)%nat /\
    (is_Return (snd (LearningRareFinder.search fw data budget s)) = true ->
     length lrs = length sms).
Proof.
  destruct (LearningRareFinder.search fw data budget s) as [s' o] eqn:E.
  cbn [fst snd]. unfold LearningRareFinder.search in E.
  destruct (search_any _ _ _ _ _ E) as (lrs & sms & Hlr & Hloss & Hlen & Hle & Hret).
  rewrite length_range in Hle. exists lrs, sms.
  split; [exact Hlr|]. split; [exact Hloss|]. split; [exact Hlen|].
  split; [lia | exact Hret].
Qed.

(** X10.  A search that returns ran up to and including the first iteration
    whose smoothed loss exceeded five times the best smoothed loss recorded
    so far, or to the end of its budget when there is none.  So it stops
    short of the budget exactly when the smoothed loss diverges at an
    iteration before the last one of the budget; a divergence at the last
    iteration changes nothing. *)
Theorem search_stops_at_first_divergence (data : LoadedContent) (budget : Z)
    (s s' : State) :
  LearningRareFinder.search fw data budget s = (s', Return tt) ->
  exists sms,
    history_loss (self s') = (history_loss (self s) ++ sms)%list /\
    length (history_lr (self s')) = (length (history_lr (self s)) + length sms)%nat /\
    (length sms <= Z.to_nat budget)%nat /\
    match first_divergence sms with
    | None => length sms = Z.to_nat budget
    | Some j => length sms = S j
    end /\
    ((length sms < Z.to_nat budget)%nat <->
     exists j, first_divergence sms = Some j /\ (S j < Z.to_nat budget)%nat).
Proof.
  intros H. destruct (search_inv _ _ _ _ H) as (lrs & sms & Hlr & Hloss & Hlen & Hdiv).
  exists sms. split; [exact Hloss|].
  split; [rewrite Hlr, length_app, Hlen; reflexivity|].
  destruct (first_divergence sms) as [j|].
  - destruct Hdiv as [Hj Hlt]. split; [lia|]. split; [exact Hj|]. split.
    + intros Hshort. exists j. split; [reflexivity | lia].
    + intros (j' & [= <-] & Hj'). lia.
  - split; [lia|]. split; [exact Hdiv|]. split.
    + intros Hshort. lia.
    + intros (j' & Hj' & _). discriminate Hj'.
Qed.

Definition not_dump (ev : io_event) : Prop :=
  match ev with JsonDump _ _ _ => False | _ => True end.

Lemma to_device_not_dump batch : emits not_dump (_to_device batch).
Proof.
  eapply emits_weaken; [|apply to_device_emits].
  intros [ | | | | | | ]; simpl; intros H; try contradiction; exact I.
Qed.

Lemma load_checkpoint_not_dump train : emits not_dump (_load_checkpoint train).
Proof.
  eapply emits_weaken; [|apply load_checkpoint_emits].
  intros [ | | | | | | ]; simpl; intros H; try contradiction; exact I.
Qed.

#[local] Hint Resolve to_device_not_dump load_checkpoint_not_dump : emits.

Lemma setup_not_dump init n : emits not_dump (Trainer._setup fw init n).
Proof.
  unfold Trainer._setup.
  emits_auto; try exact I.
  apply emits_except_CheckpointNotFound.
  apply emits_bind; [apply load_checkpoint_not_dump|]. intros _. apply emits_emit. exact I.
Qed.

Lemma run_iteration_not_dump data i :
  emits not_dump (LearningRareFinder.run_iteration fw data i).
Proof.
  unfold LearningRareFinder.run_iteration, LearningRareFinder.next_batch,
    LearningRareFinder.track_best_loss, LearningRareFinder._get_learning_rate,
    dispatch_event.
  emits_auto; try exact I.
Qed.

Lemma emits_raise_bind {A B} P (e : exn) (k : A -> M B) : emits P (bind (raise e) k).
Proof.
  intros s s' o [= <- _]. split; [reflexivity|]. exists []. rewrite app_nil_r.
  split; [reflexivity | constructor].
Qed.

Lemma bind_fails {A B} (m : M A) (k : A -> M B) s :
  (forall a s1, is_Return (snd (k a s1)) = false) ->
  is_Return (snd (bind m k s)) = false.
Proof.
  intros H. unfold bind. destruct (m s) as [s1 [a|e]]; [apply H | reflexivity].
Qed.

(** X11.  [LearningRareFinder.run] never returns and never writes
    [history.json]: whatever the data and the collaborators, the call ends
    in an exception, and nothing it did up to there is a [json.dump]. *)
Theorem lr_finder_run_never_completes (data : LoadedContent) (s : State) :
  (exists e, snd (LearningRareFinder.run fw data s) = Raise e) /\
  exists evs,
    trace (world (fst (LearningRareFinder.run fw data s)))
    = (trace (world s) ++ evs)%list /\
    Forall not_dump evs.
Proof.
  split.
  - assert (H : is_Return (snd (LearningRareFinder.run fw data s)) = false).
    { unfold LearningRareFinder.run.
      do 9 (apply bind_fails; intros). reflexivity. }
    destruct (snd (LearningRareFinder.run fw data s)) as [[]|e];
      [discriminate H | exists e; reflexivity].
  - assert (H : emits not_dump (LearningRareFinder.run fw data)).
    { unfold LearningRareFinder.run, LearningRareFinder.search,
        LearningRareFinder._set_learning_rate, dispatch_event.
      do 9 (apply emits_bind;
            [solve [ apply setup_not_dump
                   | apply emits_for_break; intros; apply run_iteration_not_dump
                   | emits_auto; exact I ]
            | intros ]).
      apply emits_raise_bind. }
    destruct (LearningRareFinder.run fw data s) as [s' o] eqn:E.
    destruct (H _ _ _ E) as (_ & evs & T & F). exists evs. split; assumption.
Qed.







End LearningRateSearch.

Lemma search_stops_at_first_divergence_witness :
  exists sms,
    history_loss (self (fst (LearningRareFinder.search example_framework diverging_loader
                               100 example_state)))
    = (history_loss (self example_state) ++ sms)%list /\
    length sms = 2%nat /\ first_divergence sms = Some 1%nat.
Proof.
  destruct (search_stops_at_first_divergence example_framework diverging_loader 100
              example_state
              (fst (LearningRareFinder.search example_framework diverging_loader 100
                      example_state)))
    as (sms & Hloss & _).
  - vm_compute. reflexivity.
  - exists sms. split; [exact Hloss|].
    assert (E : sms = history_loss
                        (self (fst (LearningRareFinder.search example_framework
                                      diverging_loader 100 example_state))))
      by (rewrite Hloss; reflexivity).
    rewrite E. vm_compute. split; reflexivity.
Defined.


(** ** Device transfer, entry by entry *)

Lemma bind_lift {A B} (r : outcome A) (k : A -> M B) s :
  bind (lift r) k s = match r with Return a => k a s | Raise e => (s, Raise e) end.
Proof. reflexivity. Qed.

Lemma to_device_entry_inv dev v s s' o :
  to_device_entry dev v s = (s', o) ->
  match o with
  | Return v' =>
      v <> VList [] /\
      match v with
      | VTensor t => v' = VTensor (tensor_to dev t)
      | VData t => v' = VData (tensor_to dev t)
      | VDict d => v' = VDict (dict_to_device dev d)
      | VList l => v' = VList l \/ exists l', v' = VList l' /\ list_to dev l = Return l'
      | _ => v' = v
      end
  | Raise e => e = IndexError /\ v = VList []
  end.
Proof.
  unfold to_device_entry.
  destruct (to_device_value dev v) as [v'|e] eqn:E.
  - intros [= <- <-]. split.
    + intros ->. discriminate E.
    + destruct v as [t|t|d|l| | | |]; cbn in E; try (injection E as <-; reflexivity).
      destruct l as [|first rest]; [discriminate E|].
      destruct (is_tensor first).
      * destruct (list_to dev (first :: rest)) as [l'|e] eqn:El; [|discriminate E].
        injection E as <-. right. exists l'. split; reflexivity.
      * injection E as <-. left. reflexivity.
  - destruct (to_device_value_raises _ _ _ E) as [[-> ->]|[-> (first & rest & ->)]].
    + intros [= <- <-]. split; reflexivity.
    + cbn [is_attribute_or_value_error]. rewrite bind_emit. intros [= <- <-].
      split; [discriminate|]. left. reflexivity.
Qed.

(** How the value under a key is left by a transfer to [dev]. *)
Definition transferred (dev : device) (kv kv' : string * pyvalue) : Prop :=
  fst kv' = fst kv /\
  match snd kv with
  | VTensor t => snd kv' = VTensor (tensor_to dev t)
  | VData t => snd kv' = VData (tensor_to dev t)
  | VDict d => snd kv' = VDict (dict_to_device dev d)
  | VList l => snd kv' = VList l \/ exists l', snd kv' = VList l' /\ list_to dev l = Return l'
  | v => snd kv' = v
  end.

Lemma to_device_items_inv dev items s s' o :
  to_device_items dev items s = (s', o) ->
  match o with
  | Return items' =>
      Forall (fun kv => snd kv <> VList []) items /\
      Forall2 (transferred dev) items items'
  | Raise e => e = IndexError /\ Exists (fun kv => snd kv = VList []) items
  end.
Proof.
  revert s s' o. induction items as [|[k v] items IH]; intros s s' o.
  - intros [= <- <-]. split; constructor.
  - cbn [to_device_items]. unfold bind at 1.
    destruct (to_device_entry dev v s) as [s1 [v'|e]] eqn:Ev;
      apply to_device_entry_inv in Ev.
    + destruct Ev as [Hne Hv]. unfold bind at 1.
      destruct (to_device_items dev items s1) as [s2 [items'|e]] eqn:Ei;
        apply IH in Ei.
      * destruct Ei as [Hall Hitems]. intros [= <- <-]. split.
        -- constructor; [exact Hne | exact Hall].
        -- constructor; [|exact Hitems]. split; [reflexivity|].
           cbn [fst snd]. destruct v; exact Hv.
      * destruct Ei as [-> Hex]. intros [= <- <-]. split; [reflexivity|].
        apply Exists_cons_tl. exact Hex.
    + destruct Ev as [-> ->]. intros [= <- <-]. split; [reflexivity|].
      apply Exists_cons_hd. reflexivity.
Qed.

Lemma Forall_Exists_nonempty (items : list (string * pyvalue)) :
  Forall (fun kv => snd kv <> VList []) items ->
  Exists (fun kv => snd kv = VList []) items -> False.
Proof.
  intros Hall Hex. induction Hex as [kv items H|kv items _ IH];
    inversion Hall as [|? ? Hkv Hrest]; subst; [exact (Hkv H) | exact (IH Hrest)].
Qed.

(** X14.  When [_to_device] returns and when it raises.  It returns exactly
    when the batch's outputs are a tensor (or a [Data] object) and none of
    its inputs is an empty list.  Otherwise it raises: [AttributeError] when
    the outputs have no [to], and else the [IndexError] of [values[0]] on an
    empty list, which the handler for [AttributeError] and [ValueError] lets
    through. *)
Theorem to_device_outcome (batch : Batch) (s : State) :
  (is_Return (snd (_to_device batch s)) = true <->
   is_tensor_or_data (outputs batch) = true /\
   Forall (fun kv => snd kv <> VList []) (inputs batch)) /\
  (forall e, snd (_to_device batch s) = Raise e ->
     (e = AttributeError /\ is_tensor_or_data (outputs batch) = false) \/
     (e = IndexError /\ is_tensor_or_data (outputs batch) = true /\
      Exists (fun kv => snd kv = VList []) (inputs batch))).
Proof.
  unfold _to_device. rewrite bind_gets.
  destruct (is_tensor_or_data (outputs batch)) eqn:Hout.
  - assert (Hto : to (_device (self s)) (outputs batch)
                  = Return (moved (_device (self s)) (outputs batch)))
      by (destruct (outputs batch); try discriminate Hout; reflexivity).
    rewrite bind_lift, Hto.
    destruct (to_device_items (_device (self s)) (inputs batch) s)
      as [s1 [items'|e]] eqn:Ei;
      [rewrite (bind_Return _ _ _ _ _ Ei) | rewrite (bind_Raise _ _ _ _ _ Ei)];
      apply to_device_items_inv in Ei; unfold ret; cbn [snd is_Return].
    + destruct Ei as [Hall _]. split.
      * split; [intros _; split; [reflexivity | exact Hall] | reflexivity].
      * intros e H. discriminate H.
    + destruct Ei as [-> Hex]. split.
      * split; [discriminate|]. intros [_ Hall].
        destruct (Forall_Exists_nonempty _ Hall Hex).
      * intros e [= <-]. right. split; [reflexivity|]. split; [reflexivity | exact Hex].
  - assert (Hto : to (_device (self s)) (outputs batch) = Raise AttributeError)
      by (destruct (outputs batch); try discriminate Hout; reflexivity).
    rewrite bind_lift, Hto. cbn [snd is_Return]. split.
    + split; [discriminate|]. intros [H _]. discriminate H.
    + intros e [= <-]. left. split; reflexivity.
Qed.

(** X15.  A transfer that returns has moved the outputs and every
    tensor-valued input to the executor's device, has kept the keys of the
    inputs and their order, and has left the executor's attributes alone.
    Entry by entry: a tensor or [Data] object is moved; a mapping is
    converted by [dict_to_device]; a list is either left as it is or
    replaced by its elements moved one by one; any other value is left as it
    is. *)
Theorem to_device_moves_tensors (batch batch' : Batch) (s s' : State) :
  _to_device batch s = (s', Return batch') ->
  self s' = self s /\
  is_tensor_or_data (outputs batch) = true /\
  outputs batch' = moved (_device (self s)) (outputs batch) /\
  map fst (inputs batch') = map fst (inputs batch) /\
  Forall2 (transferred (_device (self s))) (inputs batch) (inputs batch') /\
  (forall k t, In (k, VTensor t) (inputs batch) ->
               In (k, VTensor (tensor_to (_device (self s)) t)) (inputs batch')).
Proof.
  intros H. split; [exact (to_device_self _ _ _ _ H)|]. revert H.
  unfold _to_device. rewrite bind_gets.
  rewrite bind_lift.
  destruct (outputs batch) as [t|t|d|l| | | |] eqn:Hout; cbn [to];
    try discriminate.
  all: unfold bind at 1;
    destruct (to_device_items (_device (self s)) (inputs batch) s)
      as [s1 [items'|e]] eqn:Ei; [|discriminate];
    apply to_device_items_inv in Ei; destruct Ei as [_ Hitems];
    intros [= _ <-]; cbn [inputs outputs];
    (split; [reflexivity|]); (split; [reflexivity|]).
  all: assert (Hkeys : map fst items' = map fst (inputs batch))
    by (clear -Hitems; induction Hitems as [|kv kv' l l' [Hk _] _ IH];
        [reflexivity | cbn [map]; rewrite Hk, IH; reflexivity]).
  all: split; [exact Hkeys|]; split; [exact Hitems|].
  all: intros k t0 Hin; clear -Hitems Hin;
    induction Hitems as [|kv kv' l l' [Hk Hv] _ IH]; [destruct Hin|];
    destruct Hin as [->|Hin]; [|right; exact (IH Hin)];
    left; cbn [fst snd] in Hk, Hv; destruct kv' as [k' v']; cbn [fst snd] in Hk, Hv;
    subst; reflexivity.
Qed.

(** X16.  [dict_to_device] is shallow.  Its parameter is called [dict], so
    the test [type(v) is dict] compares the type of a value with the mapping
    being converted and never holds: the method moves the tensors and [Data]
    objects that are values of the mapping itself and returns every other
    value, nested mappings included, as it is. *)
Theorem dict_to_device_is_shallow (dev : device) (d : list (string * pyvalue)) :
  dict_to_device dev d
  = map (fun kv => (fst kv,
                    if is_tensor_or_data (snd kv) then moved dev (snd kv) else snd kv)) d /\
  (forall k inner, In (k, VDict inner) d -> In (k, VDict inner) (dict_to_device dev d)).
Proof.
  assert (H : forall dict v,
             dict_value_to_device dev dict v
             = if is_tensor_or_data v then moved dev v else v)
    by (intros dict v; destruct v; reflexivity).
  assert (E : dict_to_device dev d
              = map (fun kv => (fst kv,
                                if is_tensor_or_data (snd kv) then moved dev (snd kv)
                                else snd kv)) d).
  { unfold dict_to_device. apply map_ext. intros kv. rewrite H. reflexivity. }
  split; [exact E|]. intros k inner Hin. rewrite E.
  apply in_map_iff. exists (k, VDict inner). split; [reflexivity | exact Hin].
Qed.

Lemma to_device_moves_tensors_witness :
  exists s',
    _to_device example_batch example_state
    = (s', Return {| inputs := [("x", VTensor (mkTensor 5 (CUDA 0)))];
                     outputs := VTensor (mkTensor 0 (CUDA 0)) |}) /\
    self s' = self example_state.
Proof.
  exists (fst (_to_device example_batch example_state)).
  assert (H : _to_device example_batch example_state
              = (fst (_to_device example_batch example_state),
                 Return {| inputs := [("x", VTensor (mkTensor 5 (CUDA 0)))];
                           outputs := VTensor (mkTensor 0 (CUDA 0)) |}))
    by reflexivity.
  split; [exact H|].
  exact (proj1 (to_device_moves_tensors _ _ _ _ H)).
Defined.

(** ** Prediction over a data set *)

Section PredictorFacts.
Variable fw : Framework.



End PredictorFacts.


(** ** Building a predictor *)

Lemma executor_init_spec cfg w :
  AbstractExecutor_init cfg w
  = ({| self :=
          {| config := cfg; _start_epoch := VInt 0; _device := get_device cfg;
             network :=
               mkNetwork
                 (let base := if model_is_ensemble cfg then EnsembleNetwork
                              else PlainNetwork in
                  if should_parallelize cfg then CustomDataParallel base else base)
                 (model_initial_state cfg) (get_device cfg) true;
             optimizer := None; scheduler := None; probe := None;
             history_lr := []; history_loss := []; best_loss := None;
             _iterator := [] |};
        world := {| files := files w;
                    trace := trace w ++ [Dispatch "after_network_create"] |} |},
     Return tt).
Proof.
  unfold AbstractExecutor_init, _setup_network, dispatch_event.
  rewrite bind_gets, bind_modify, bind_emit. cbn [self world config].
  destruct (should_parallelize cfg); [rewrite bind_modify|rewrite bind_ret]; reflexivity.
Qed.

Lemma load_checkpoint_net_class train s s' o :
  _load_checkpoint train s = (s', o) ->
  net_class_of (network (self s')) = net_class_of (network (self s)).
Proof.
  run_load.
  destruct (checkpoint_path (config (self s))) as [p|]; simpl;
    [|intros [= <- _]; reflexivity].
  destruct (files (world s) !! p) as [info|] eqn:Hf; simpl;
    [|intros [= <- _]; reflexivity].
  destruct (info !! "model") as [w|]; simpl; [|intros [= <- _]; reflexivity].
  destruct (negb (is_finetuning (config (self s))) && train); simpl;
    [|intros [= <- _]; reflexivity].
  rewrite Hf. simpl.
  destruct (optimizer (self s)), (info !! "optimizer"); simpl;
    destruct (scheduler (self s)), (info !! "scheduler"); simpl;
    destruct (info !! "epoch"); simpl; intros [= <- _]; reflexivity.
Qed.

(** X18.  A predictor cannot be built without its checkpoint: with no path
    configured, or no file at the path, [Predictor.__init__] raises
    [CheckpointNotFound] (the constructor, unlike [Trainer._setup], does not
    handle it). *)
Theorem predictor_init_needs_checkpoint (cfg : Config) (w : World) :
  match checkpoint_path cfg with
  | None => True
  | Some p => files w !! p = None
  end ->
  snd (Predictor.init cfg w) = Raise CheckpointNotFound.
Proof.
  intros H. unfold Predictor.init. rewrite executor_init_spec.
  match goal with
  | |- context [bind (_load_checkpoint false) ?k ?st] =>
      destruct (load_checkpoint_not_found false st H) as (s' & Hload & _);
      rewrite (bind_Raise _ k _ _ _ Hload)
  end.
  reflexivity.
Qed.

(** X19.  The ensemble test of [set_hook_probe] looks at the object held in
    [self.network].  When the configuration asks for parallel execution,
    [_setup_network] has wrapped the network in [CustomDataParallel], so on
    a predictor built from such a configuration the test fails even for an
    ensemble model: [set_hook_probe] raises nothing and attaches the probe
    to the wrapper. *)
Theorem parallel_ensemble_is_probed (cfg : Config) (w : World) (s : State) :
  should_parallelize cfg = true ->
  Predictor.init cfg w = (s, Return tt) ->
  is_EnsembleNetwork (network (self s)) = false /\
  Predictor.set_hook_probe s
  = ({| self := set_probe (Some (mkHookProbe (network (self s))
                                   (probe_layer (config (self s))))) (self s);
        world := world s |}, Return tt).
Proof.
  intros Hpar. unfold Predictor.init. rewrite executor_init_spec, Hpar. cbv zeta.
  unfold bind at 1.
  match goal with
  | |- context [_load_checkpoint false ?st] =>
      destruct (_load_checkpoint false st) as [s1 [[]|e]] eqn:E; [|discriminate];
      apply load_checkpoint_net_class in E; cbn [self network net_class_of] in E
  end.
  rewrite bind_modify. intros [= <-].
  assert (Hens : is_EnsembleNetwork
                   (network (self {| self := set_probe None
                                      (set_network
                                         (mkNetwork (net_class_of (network (self s1)))
                                            (net_state (network (self s1)))
                                            (net_device (network (self s1))) false)
                                         (self s1));
                                     world := world s1 |})) = false).
  { unfold is_EnsembleNetwork. cbn [self network set_probe set_network net_class_of].
    rewrite E. reflexivity. }
  split; [exact Hens|]. apply set_hook_probe_attaches. exact Hens.
Qed.

Lemma predictor_init_needs_checkpoint_witness :
  snd (Predictor.init (with_checkpoint_path None example_config) example_world)
  = Raise CheckpointNotFound.
Proof.
  apply (predictor_init_needs_checkpoint (with_checkpoint_path None example_config)
           example_world).
  exact I.
Defined.

Lemma parallel_ensemble_is_probed_witness :
  model_is_ensemble parallel_probe_config = true /\
  is_EnsembleNetwork
    (network (self (fst (Predictor.init parallel_probe_config example_world)))) = false.
Proof.
  split; [reflexivity|].
  apply (parallel_ensemble_is_probed parallel_probe_config example_world
           (fst (Predictor.init parallel_probe_config example_world)) eq_refl).
  vm_compute. reflexivity.
Defined.

(** ** Validation and logging *)

Section TrainerSteps.
Variable fw : Framework.

Lemma for_fold_self {A B} (l : list A) (acc : B) (body : B -> A -> M B) :
  (forall b a s s' o, body b a s = (s', o) -> self s' = self s) ->
  forall s s' o, for_fold l acc body s = (s', o) -> self s' = self s.
Proof.
  intros Hbody. revert acc. induction l as [|x l IH]; intros acc s s' o; cbn [for_fold].
  - intros [= <- _]. reflexivity.
  - unfold bind at 1. destruct (body acc x s) as [s1 [b|e]] eqn:E;
      apply Hbody in E.
    + intros H. apply IH in H. congruence.
    + intros [= <- _]. exact E.
Qed.

Lemma validation_step_self acc batch s s' o :
  Trainer.validation_step fw acc batch s = (s', o) -> self s' = self s.
Proof.
  unfold Trainer.validation_step. unfold bind at 1.
  destruct (_to_device batch s) as [s1 [b|e]] eqn:E; apply to_device_self in E.
  - rewrite bind_gets. cbv zeta. unfold dispatch_event. rewrite bind_emit.
    intros [= <- _]. exact E.
  - intros [= <- _]. exact E.
Qed.

(** X20.  Validation does not train.  Whatever its outcome, [_validation]
    leaves the weights, the optimizer, the scheduler and every other
    attribute of the executor as they were, except that with a validation
    loader the network is put in evaluation mode; and it writes neither a
    checkpoint nor a line of the log. *)
Theorem validation_keeps_state (val : option LoadedContent) (s : State) :
  self (fst (Trainer._validation fw val s))
  = match val with
    | None => self s
    | Some _ =>
        set_network (mkNetwork (net_class_of (network (self s)))
                       (net_state (network (self s)))
                       (net_device (network (self s))) false) (self s)
    end /\
  exists evs,
    trace (world (fst (Trainer._validation fw val s))) = (trace (world s) ++ evs)%list /\
    milestones evs = [].
Proof.
  split.
  - destruct val as [loader|]; [|reflexivity].
    unfold Trainer._validation. rewrite bind_modify. unfold bind.
    match goal with
    | |- context [for_fold ?l ?a ?body ?st] =>
        destruct (for_fold l a body st) as [s1 [acc|e]] eqn:E;
        apply (for_fold_self _ _ _ (validation_step_self)) in E
    end; cbn [fst ret]; exact E.
  - destruct (Trainer._validation fw val s) as [s' o] eqn:E.
    destruct (validation_quiet fw _ _ _ _ E) as (_ & evs & T & F).
    exists evs. split; [exact T | exact (milestones_quiet _ F)].
Qed.




End TrainerSteps.


(** ** Learning rates *)

(** X22.  Setting the learning rate and reading it back.  On an executor
    that holds an optimizer, [_set_learning_rate] gives every parameter
    group the new rate and changes neither their number nor the optimizer's
    state; [_get_learning_rate] then reads the new rate back, or raises
    [IndexError] when the optimizer has no parameter group. *)
Theorem set_learning_rate_then_get (new_lr : float) (s : State) (opt : Optimizer) :
  optimizer (self s) = Some opt ->
  exists s' opt',
    LearningRareFinder._set_learning_rate new_lr s = (s', Return tt) /\
    optimizer (self s') = Some opt' /\
    opt_state opt' = opt_state opt /\
    length (param_groups opt') = length (param_groups opt) /\
    Forall (eq new_lr) (param_groups opt') /\
    LearningRareFinder._get_learning_rate s'
    = (s', match param_groups opt with
           | [] => Raise IndexError
           | _ :: _ => Return new_lr
           end).
Proof.
  intros Ho. unfold LearningRareFinder._set_learning_rate.
  rewrite bind_bind, bind_gets, Ho. cbn [the]. rewrite bind_ret.
  eexists _, _. split; [reflexivity|]. cbn [self optimizer set_optimizer opt_state
                                           param_groups].
  split; [reflexivity|]. split; [reflexivity|].
  split; [apply length_map|].
  split; [apply List.Forall_forall; intros x Hx; apply in_map_iff in Hx;
          destruct Hx as (y & <- & _); reflexivity|].
  unfold LearningRareFinder._get_learning_rate.
  rewrite bind_bind, bind_gets. cbn [self optimizer set_optimizer the param_groups].
  rewrite bind_ret. destruct (param_groups opt); reflexivity.
Qed.

Lemma set_learning_rate_then_get_witness :
  exists s',
    LearningRareFinder._set_learning_rate LearningRareFinder.START_LR example_state
    = (s', Return tt) /\
    LearningRareFinder._get_learning_rate s' = (s', Return LearningRareFinder.START_LR).
Proof.
  destruct (set_learning_rate_then_get LearningRareFinder.START_LR example_state
              {| opt_state := VInt 2; param_groups := [0.001%float] |} eq_refl)
    as (s' & opt' & Hset & _ & _ & _ & _ & Hget).
  exists s'. split; [exact Hset | exact Hget].
Defined.
